(** * Quickchart: column classification and chart-candidate selection

    A shallow embedding of [google/colab/_quickchart.py]: the dtype
    classifier ([_classify_dtypes]), the candidate selectors
    ([_select_first_k_pairs], [_select_faceted_numeric_cols],
    [_select_time_series_cols]), the orchestrator ([determine_charts]) and
    the entry point ([find_charts]).

    Data frames are lists of named, dtyped series of cell values.  Calls to
    the chart-building collaborator, log warnings and printed notices are
    effects recorded in an explicit state; Python exceptions are explicit
    results of a small state-and-error monad. *)

From Stdlib Require Import List ZArith Bool Ascii String Permutation Lia.
From Stdlib Require Import PrimFloat.
From Stdlib Require SpecFloat FloatOps FloatAxioms.
From Stdlib Require Import Sorted.
Import ListNotations.

Local Open Scope list_scope.
Local Open Scope Z_scope.

(** ** Cell values *)

(** The Python objects a cell of a column can hold.  Tuples and lists are
    the iterable containers; a list is unhashable, a tuple is hashable when
    all of its items are.  Floats are binary64 numbers; timestamps and
    timedeltas are counts of nanoseconds.  Complex cells, dicts and sets are
    left out. *)
#[local] Set Warnings "-register-all".
Inductive value : Type :=
| VNone
| VBool (b : bool)
| VInt (z : Z)
| VFloat (f : float)
| VStr (s : string)
| VBytes (s : string)
| VTimestamp (ns : Z)
| VTimedelta (ns : Z)
| VTuple (items : list value)
| VList (items : list value).

(** [pd.api.types.is_hashable]: does [hash(x)] succeed. *)
Fixpoint is_hashable (x : value) : bool :=
  match x with
  | VList _ => false
  | VTuple items => forallb is_hashable items
  | _ => true
  end.

(** [isinstance(x, collections.abc.Iterable)]. *)
Definition is_iterable (x : value) : bool :=
  match x with
  | VStr _ | VBytes _ | VTuple _ | VList _ => true
  | _ => false
  end.

(** [isinstance(x, (bytes, str))]. *)
Definition is_bytes_or_str (x : value) : bool :=
  match x with
  | VStr _ | VBytes _ => true
  | _ => false
  end.

(** [f == z] for a float and an integer: Python compares the two exactly,
    so they are equal when the float is finite, has no fractional part and
    has the integer's value. *)
Definition float_eqb_Z (f : float) (z : Z) : bool :=
  match FloatOps.Prim2SF f with
  | SpecFloat.S754_zero _ => z =? 0
  | SpecFloat.S754_finite s m e =>
      let magnitude :=
        if 0 <=? e then Some (Z.pos m * 2 ^ e)
        else if (Z.pos m) mod 2 ^ (- e) =? 0 then Some (Z.pos m / 2 ^ (- e))
        else None in
      match magnitude with
      | Some v => z =? (if s then - v else v)
      | None => false
      end
  | _ => false
  end.

(** Equality of cells as the hash table behind [Series.unique] sees it:
    Python equality, with all NaNs identified.  Numbers are equal across
    their types ([True == 1 == 1.0]), tuples are equal item by item; a
    tuple and a list, a string and a byte string, a timestamp and a
    timedelta are never equal. *)
Fixpoint value_eqb (x y : value) : bool :=
  let fix items_eqb (l1 l2 : list value) : bool :=
    match l1, l2 with
    | [], [] => true
    | a :: l1', b :: l2' => value_eqb a b && items_eqb l1' l2'
    | _, _ => false
    end in
  match x, y with
  | VNone, VNone => true
  | VBool a, VBool b => Bool.eqb a b
  | VBool a, VInt b => Z.b2z a =? b
  | VInt a, VBool b => a =? Z.b2z b
  | VInt a, VInt b => a =? b
  | VInt a, VFloat b => float_eqb_Z b a
  | VFloat a, VInt b => float_eqb_Z a b
  | VBool a, VFloat b => float_eqb_Z b (Z.b2z a)
  | VFloat a, VBool b => float_eqb_Z a (Z.b2z b)
  | VFloat a, VFloat b => PrimFloat.eqb a b || (is_nan a && is_nan b)
  | VStr a, VStr b => String.eqb a b
  | VBytes a, VBytes b => String.eqb a b
  | VTimestamp a, VTimestamp b => a =? b
  | VTimedelta a, VTimedelta b => a =? b
  | VTuple a, VTuple b => items_eqb a b
  | VList a, VList b => items_eqb a b
  | _, _ => false
  end.

(** [Series.unique()]: the distinct values, in order of first appearance. *)
Definition unique (vs : list value) : list value :=
  fold_left
    (fun seen v => if existsb (value_eqb v) seen then seen else seen ++ [v])
    vs [].

(** ** Dtypes *)

(** Instances of [np.dtype], by family.  Columns never have sub-array
    dtypes, so [dtype.base] is the dtype itself. *)
Inductive np_dtype : Type :=
| np_bool
| np_int (bits : N)
| np_uint (bits : N)
| np_float (bits : N)
| np_complex (bits : N)
| np_timedelta64 (unit_ : string)
| np_datetime64 (unit_ : string)
| np_object
| np_bytes (width : N)
| np_str (width : N)
| np_void (width : N).

(** A column's dtype: a numpy dtype, or a pandas extension dtype (which is
    not an [np.dtype]) described by its name, its [kind] and whether pandas
    counts it as numeric. *)
Inductive Dtype : Type :=
| NumpyDtype (d : np_dtype)
| ExtensionDtype (ext_name : string) (ext_kind : ascii) (ext_is_numeric : bool).

Definition np_kind (d : np_dtype) : ascii :=
  match d with
  | np_bool => "b"
  | np_int _ => "i"
  | np_uint _ => "u"
  | np_float _ => "f"
  | np_complex _ => "c"
  | np_timedelta64 _ => "m"
  | np_datetime64 _ => "M"
  | np_object => "O"
  | np_bytes _ => "S"
  | np_str _ => "U"
  | np_void _ => "V"
  end%char.

(** [dtype.kind]. *)
Definition kind (d : Dtype) : ascii :=
  match d with
  | NumpyDtype d => np_kind d
  | ExtensionDtype _ k _ => k
  end.

Lemma np_dtype_eq_dec (a b : np_dtype) : {a = b} + {a <> b}.
Proof. decide equality; first [apply N.eq_dec | apply string_dec]. Defined.

Lemma Dtype_eq_dec (a b : Dtype) : {a = b} + {a <> b}.
Proof.
  decide equality;
    first [apply np_dtype_eq_dec | apply string_dec | apply ascii_dec | apply bool_dec].
Defined.

(** [a == b] on dtypes. *)
Definition Dtype_eqb (a b : Dtype) : bool :=
  if Dtype_eq_dec a b then true else false.

(** [np.issubdtype(d, np.number)]: the scalar types below [np.number] are
    the integers (signed, among them [timedelta64], and unsigned), the
    floats and the complex floats. *)
Definition np_issubdtype_number (d : np_dtype) : bool :=
  match d with
  | np_int _ | np_uint _ | np_float _ | np_complex _ | np_timedelta64 _ => true
  | _ => false
  end.

(** [pandas.api.types.is_numeric_dtype]. *)
Definition is_numeric_dtype (d : Dtype) : bool :=
  match d with
  | NumpyDtype (np_bool | np_int _ | np_uint _ | np_float _ | np_complex _) => true
  | NumpyDtype _ => false
  | ExtensionDtype _ _ numeric => numeric
  end.

(** ** Series and data frames *)

Record Series : Type := mkSeries {
  name : string;
  dtype : Dtype;
  values : list value
}.

Definition DataFrame : Type := list Series.

(** [df.columns] and [df.dtypes]. *)
Definition columns (df : DataFrame) : list string := map name df.
Definition dtypes (df : DataFrame) : list Dtype := map dtype df.

(** A data frame is well formed when its column labels are distinct, so
    that [df[colname]] is a series. *)
Definition well_formed (df : DataFrame) : Prop := NoDup (columns df).

Definition empty_series (colname : string) : Series :=
  mkSeries colname (NumpyDtype np_object) [].

(** [df[colname]].  Every label that the classifier looks up comes from
    [df.columns], so the [KeyError] of an absent label is never reached;
    the default stands for it. *)
Definition getitem (df : DataFrame) (colname : string) : Series :=
  match find (fun s => String.eqb (name s) colname) df with
  | Some s => s
  | None => empty_series colname
  end.

(** ** Module constants *)

Definition _CATEGORICAL_DTYPES : list Dtype :=
  [NumpyDtype np_object; NumpyDtype np_bool].
Definition _DEFAULT_DATETIME_DTYPE : Dtype := NumpyDtype (np_datetime64 "ns").
Definition _DATETIME_DTYPES : list Dtype := [_DEFAULT_DATETIME_DTYPE].
Definition _DATETIME_DTYPE_KINDS : list ascii := ["M"%char].
Definition _DATETIME_COLNAME_PATTERNS : list string :=
  ["date"; "datetime"; "time"; "timestamp"]%string.
Definition _DATETIME_COLNAMES : list string := ["dt"; "t"; "ts"; "year"]%string.
Definition _CATEGORICAL_LARGE_SIZE_THRESHOLD : nat := 8.

(** ** String operations on column labels *)

(** [str.lower], on the ASCII letters. *)
Definition lower_ascii (c : ascii) : ascii :=
  let n := nat_of_ascii c in
  if (Nat.leb 65 n && Nat.leb n 90)%bool then ascii_of_nat (n + 32) else c.

Fixpoint lower (s : string) : string :=
  match s with
  | EmptyString => EmptyString
  | String c s' => String (lower_ascii c) (lower s')
  end.

(** [s.startswith(p)]. *)
Definition startswith (s p : string) : bool := String.prefix p s.

(** [s.endswith(p)]. *)
Fixpoint endswith (s p : string) : bool :=
  (String.eqb s p
   || match s with
      | EmptyString => false
      | String _ s' => endswith s' p
      end)%bool.

(** ** The timelike tests *)

(** The closure [_matches_datetime_pattern] of [_classify_dtypes]. *)
Definition _matches_datetime_pattern (colname : string) : bool :=
  let colname := lower colname in
  (existsb (fun p => startswith colname p || endswith colname p)
     _DATETIME_COLNAME_PATTERNS
   || existsb (fun c => String.eqb colname c) _DATETIME_COLNAMES)%bool.

(** Elementwise [<=] of two cells of a numeric array. *)
Definition np_le (x y : value) : bool :=
  match x, y with
  | VInt a, VInt b => a <=? b
  | VFloat a, VFloat b => PrimFloat.leb a b
  | VTimedelta a, VTimedelta b => a <=? b
  | _, _ => false
  end.

(** [a <= b] on arrays of the same length, and [np.all]. *)
Definition np_le_array (a b : list value) : list bool :=
  map (fun p => np_le (fst p) (snd p)) (combine a b).
Definition np_all (a : list bool) : bool := forallb (fun b => b) a.

Definition _is_monotonically_increasing_numeric (series : Series) : bool :=
  match dtype series with
  | ExtensionDtype _ _ _ => false
  | NumpyDtype d =>
      (np_issubdtype_number d
       && np_all (np_le_array (removelast (values series)) (tl (values series))))%bool
  end.

Definition _is_non_scalar (x : value) : bool :=
  (is_iterable x && negb (is_bytes_or_str x))%bool.

Definition _all_values_scalar (series : Series) : bool :=
  negb (existsb _is_non_scalar (values series)).

(** ** The classifier *)

(** The classifier's result: the dict with the seven fixed keys. *)
Record dtype_groups : Type := mk_dtype_groups {
  numeric : list string;
  categorical : list string;
  large_categorical : list string;
  datetime : list string;
  timelike : list string;
  singleton : list string;
  filtered : list string
}.

(** The five lists the first loop of [_classify_dtypes] appends to. *)
Record primary_lists : Type := mk_primary_lists {
  filtered_cols : list string;
  numeric_cols : list string;
  cat_cols : list string;
  datetime_cols : list string;
  singleton_cols : list string
}.

Definition no_primary_lists : primary_lists := mk_primary_lists [] [] [] [] [].

(** One iteration of the first loop: the [if]/[elif] chain over
    [(colname, colname_dtype)]. *)
Definition classify_step (df : DataFrame)
    (categorical_dtypes datetime_dtypes : list Dtype)
    (datetime_dtype_kinds : list ascii)
    (acc : primary_lists) (item : string * Dtype) : primary_lists :=
  let (colname, colname_dtype) := item in
  let (filtered_cols, numeric_cols, cat_cols, datetime_cols, singleton_cols) := acc in
  if negb (forallb is_hashable (values (getitem df colname))) then
    mk_primary_lists (filtered_cols ++ [colname]) numeric_cols cat_cols
      datetime_cols singleton_cols
  else if Nat.leb (List.length (unique (values (getitem df colname)))) 1 then
    mk_primary_lists filtered_cols numeric_cols cat_cols datetime_cols
      (singleton_cols ++ [colname])
  else if existsb (Dtype_eqb colname_dtype) categorical_dtypes then
    mk_primary_lists filtered_cols numeric_cols (cat_cols ++ [colname])
      datetime_cols singleton_cols
  else if (existsb (Dtype_eqb colname_dtype) datetime_dtypes
           || existsb (Ascii.eqb (kind colname_dtype)) datetime_dtype_kinds)%bool then
    mk_primary_lists filtered_cols numeric_cols cat_cols
      (datetime_cols ++ [colname]) singleton_cols
  else if is_numeric_dtype colname_dtype then
    mk_primary_lists filtered_cols (numeric_cols ++ [colname]) cat_cols
      datetime_cols singleton_cols
  else
    mk_primary_lists (filtered_cols ++ [colname]) numeric_cols cat_cols
      datetime_cols singleton_cols.

(** The first loop, over [zip(dtypes.colname, dtypes.colname_dtype)]. *)
Definition classify_loop (df : DataFrame)
    (categorical_dtypes datetime_dtypes : list Dtype)
    (datetime_dtype_kinds : list ascii) : primary_lists :=
  fold_left
    (classify_step df categorical_dtypes datetime_dtypes datetime_dtype_kinds)
    (combine (columns df) (dtypes df)) no_primary_lists.

(** The second loop: categorical columns split by their number of distinct
    values into [(small_cat_cols, large_cat_cols)]. *)
Definition split_categoricals (df : DataFrame) (categorical_size_threshold : nat)
    (cat_cols : list string) : list string * list string :=
  fold_left
    (fun (acc : list string * list string) colname =>
       let (small_cat_cols, large_cat_cols) := acc in
       if Nat.leb (List.length (unique (values (getitem df colname))))
            categorical_size_threshold
       then (small_cat_cols ++ [colname], large_cat_cols)
       else (small_cat_cols, large_cat_cols ++ [colname]))
    cat_cols ([], []).

(** The third loop: the timelike tag, over [df.columns]. *)
Definition timelike_loop (df : DataFrame) : list string :=
  fold_left
    (fun timelike_cols colname =>
       if ((_matches_datetime_pattern colname
            || _is_monotonically_increasing_numeric (getitem df colname))
           && _all_values_scalar (getitem df colname))%bool
       then timelike_cols ++ [colname]
       else timelike_cols)
    (columns df) [].

(** The dict that [_classify_dtypes] returns, for given keyword arguments. *)
Definition classify_with (df : DataFrame)
    (categorical_dtypes datetime_dtypes : list Dtype)
    (datetime_dtype_kinds : list ascii)
    (categorical_size_threshold : nat) : dtype_groups :=
  let lists :=
    classify_loop df categorical_dtypes datetime_dtypes datetime_dtype_kinds in
  let (small_cat_cols, large_cat_cols) :=
    split_categoricals df categorical_size_threshold (cat_cols lists) in
  {| numeric := numeric_cols lists;
     categorical := small_cat_cols;
     large_categorical := large_cat_cols;
     datetime := datetime_cols lists;
     timelike := timelike_loop df;
     singleton := singleton_cols lists;
     filtered := filtered_cols lists |}.

(** The same with the default keyword arguments. *)
Definition classify (df : DataFrame) : dtype_groups :=
  classify_with df _CATEGORICAL_DTYPES _DATETIME_DTYPES _DATETIME_DTYPE_KINDS
    _CATEGORICAL_LARGE_SIZE_THRESHOLD.

(** ** Python slices and itertools *)

Inductive exn : Type :=
| ValueError (msg : string).

(** Truth value of a list: non-empty. *)
Definition truthy {A : Type} (l : list A) : bool :=
  match l with
  | [] => false
  | _ :: _ => true
  end.

(** [sys.maxsize] of a 64-bit interpreter. *)
Definition sys_maxsize : Z := 2 ^ 63 - 1.

(** The list slice [l[:stop]]: [stop] is [None] or an integer; a negative
    [stop] counts from the end. *)
Definition slice_to {A : Type} (l : list A) (stop : option Z) : list A :=
  match stop with
  | None => l
  | Some k =>
      if k <? 0 then firstn (List.length l - Z.to_nat (- k)) l
      else firstn (Z.to_nat k) l
  end.

(** The message of the [ValueError] of [itertools.islice] for a refused
    [stop]: CPython converts [stop] to a machine integer and words the
    error after the stop argument when the conversion gives -1 (for -1
    itself and for an integer that does not fit), and after the indices for
    any other negative stop. *)
Definition islice_message (k : Z) : string :=
  if ((k =? -1) || (sys_maxsize <? k) || (k <? - sys_maxsize - 1))%bool then
    "Stop argument for islice() must be None or an integer: 0 <= x <= sys.maxsize."
  else
    "Indices for islice() must be None or an integer: 0 <= x <= sys.maxsize.".

(** [itertools.islice(it, stop)]: a [stop] that is neither [None] nor in
    [0 .. sys.maxsize] is refused with a [ValueError] when the slice is
    built. *)
Definition islice {A : Type} (it : list A) (stop : option Z) : exn + list A :=
  match stop with
  | None => inr it
  | Some k =>
      if ((k <? 0) || (sys_maxsize <? k))%bool then
        inl (ValueError (islice_message k))
      else inr (firstn (Z.to_nat k) it)
  end.

(** [itertools.pairwise]. *)
Fixpoint pairwise {A : Type} (l : list A) : list (A * A) :=
  match l with
  | a :: (b :: _) as rest => (a, b) :: pairwise rest
  | _ => []
  end.

(** [itertools.product] of two and of three iterables: the rightmost
    iterable advances fastest. *)
Definition product {A B : Type} (xs : list A) (ys : list B) : list (A * B) :=
  flat_map (fun x => map (fun y => (x, y)) ys) xs.

Definition product3 {A B C : Type} (xs : list A) (ys : list B) (zs : list C)
  : list (A * B * C) :=
  flat_map (fun x => flat_map (fun y => map (fun z => (x, y, z)) zs) ys) xs.

(** ** Candidate selectors *)

Definition _select_first_k_pairs (colnames : list string) (k : option Z)
  : exn + list (string * string) :=
  islice (pairwise colnames) k.

Definition _select_faceted_numeric_cols
    (numeric_cols categorical_cols : list string) (k : option Z)
  : exn + list (string * string) :=
  islice (product numeric_cols categorical_cols) k.

(** [c in time_cols]. *)
Definition contains (l : list string) (c : string) : bool :=
  existsb (fun x => String.eqb x c) l.

(** The series slot of a time-series tuple is a column label or [None]. *)
Definition _select_time_series_cols
    (time_cols numeric_cols categorical_cols : list string) (k : option Z)
  : exn + list (string * string * option string) :=
  let numeric_cols := filter (fun c => negb (contains time_cols c)) numeric_cols in
  let numeric_aggregates := ["count()"%string] in
  let categorical_cols :=
    if negb (truthy categorical_cols) then [None]
    else map Some categorical_cols in
  islice (product3 time_cols (numeric_cols ++ numeric_aggregates) categorical_cols) k.

(** ** Effects *)

(** The chart families, one per section builder of the collaborator. *)
Inductive family : Type :=
| histogram
| categorical_histogram
| scatter
| time_series_line
| value_plot
| heatmap
| faceted_distribution.

(** The candidate sequence handed to a section builder. *)
Inductive candidates : Type :=
| Columns (cols : list string)
| Pairs (pairs : list (string * string))
| Triples (triples : list (string * string * option string)).

(** The object bound to [_DATAFRAME_REGISTRY] or passed as
    [dataframe_registry]. *)
Inductive registry : Type :=
| NoRegistry
| DataframeRegistry (variable_namespace : list string)
| FixedDataframeRegistry (df_name : string).

(** What the code does besides computing: a logged warning, a printed line,
    a call of a section builder with its candidate sequence. *)
Inductive event : Type :=
| LogWarning (cols : list string)
| Print (line : string)
| HelperCall (f : family) (c : candidates).

(** The interpreter state: the user namespace of the running IPython shell
    ([None] outside of one), the module global, and the events so far. *)
Record state : Type := mk_state {
  ipython_user_ns : option (list string);
  _DATAFRAME_REGISTRY : registry;
  trace : list event
}.

(** Computations that read and write the state and may raise. *)
Definition M (A : Type) : Type := state -> (exn + A) * state.

Definition ret {A : Type} (a : A) : M A := fun st => (inr a, st).

Definition bind {A B : Type} (m : M A) (f : A -> M B) : M B :=
  fun st =>
    match m st with
    | (inl e, st') => (inl e, st')
    | (inr a, st') => f a st'
    end.

Notation "x <- m ;; k" := (bind m (fun x => k))
  (at level 61, m at next level, right associativity).
Notation "m ;;; k" := (bind m (fun _ => k))
  (at level 61, right associativity).

(** A computation that is a value or an exception. *)
Definition lift {A : Type} (r : exn + A) : M A := fun st => (r, st).

Definition emit (e : event) : M unit :=
  fun st =>
    (inr tt, mk_state (ipython_user_ns st) (_DATAFRAME_REGISTRY st) (trace st ++ [e])).

(** [_classify_dtypes] with its default keyword arguments: the groups, and
    the warning logged between the first and the second loop when some
    column was filtered. *)
Definition _classify_dtypes (df : DataFrame) : M dtype_groups :=
  let lists :=
    classify_loop df _CATEGORICAL_DTYPES _DATETIME_DTYPES _DATETIME_DTYPE_KINDS in
  (if truthy (filtered_cols lists) then emit (LogWarning (filtered_cols lists))
   else ret tt) ;;;
  ret (classify df).

(** ** The chart-building collaborator *)

(** Modelled from the spec: the module [_quickchart_helpers] is not part of
    the sources.  It is the chart-building service of the spec: one section
    builder per chart family which, given the data frame, a candidate
    sequence and the registry used for labels, returns a section exposing
    its list of charts.  The builders are left abstract: a field gives the
    charts of the section a builder returns.  What a builder does with the
    registry it is handed (the registry registers a display name for the
    frame) is the collaborator's own effect and is not recorded: the state
    of this development holds the effects of the module itself. *)
Class QuickchartHelpers : Type := {
  chart : Type;
  histograms :
    DataFrame -> list string -> registry -> list chart;
  categorical_histograms :
    DataFrame -> list string -> registry -> list chart;
  scatter_plots :
    DataFrame -> list (string * string) -> registry -> list chart;
  time_series_line_plots :
    DataFrame -> list (string * string * option string) -> registry -> list chart;
  value_plots :
    DataFrame -> list string -> registry -> list chart;
  heatmaps :
    DataFrame -> list (string * string) -> registry -> list chart;
  faceted_distributions :
    DataFrame -> list (string * string) -> registry -> list chart
}.

Section Orchestrator.

Context {helpers : QuickchartHelpers}.

(** A chart section: its family label and its charts. *)
Record ChartSection : Type := mk_section {
  section_type : family;
  charts : list chart
}.

(** A call of a section builder: recorded with its candidate sequence. *)
Definition call_helper (f : family) (c : candidates) (made : list chart)
  : M ChartSection :=
  emit (HelperCall f c) ;;; ret (mk_section f made).

Definition histograms_section df colnames df_registry : M ChartSection :=
  call_helper histogram (Columns colnames) (histograms df colnames df_registry).

Definition categorical_histograms_section df colnames df_registry : M ChartSection :=
  call_helper categorical_histogram (Columns colnames)
    (categorical_histograms df colnames df_registry).

Definition scatter_section df colname_pairs df_registry : M ChartSection :=
  call_helper scatter (Pairs colname_pairs) (scatter_plots df colname_pairs df_registry).

Definition time_series_line_plots_section df series_colnames df_registry
  : M ChartSection :=
  call_helper time_series_line (Triples series_colnames)
    (time_series_line_plots df series_colnames df_registry).

Definition value_plots_section df colnames df_registry : M ChartSection :=
  call_helper value_plot (Columns colnames) (value_plots df colnames df_registry).

Definition heatmaps_section df colname_pairs df_registry : M ChartSection :=
  call_helper heatmap (Pairs colname_pairs) (heatmaps df colname_pairs df_registry).

Definition faceted_distributions_section df colname_pairs df_registry
  : M ChartSection :=
  call_helper faceted_distribution (Pairs colname_pairs)
    (faceted_distributions df colname_pairs df_registry).

(** The block repeated for every family:
    [if cond: section = ...; if section.charts: chart_sections.append(section)]. *)
Definition section_if (cond : bool) (build : M ChartSection)
    (chart_sections : list ChartSection) : M (list ChartSection) :=
  if cond then
    section <- build ;;
    ret (if truthy (charts section) then chart_sections ++ [section]
         else chart_sections)
  else ret chart_sections.

Definition determine_charts (df : DataFrame) (dataframe_registry : registry)
    (max_chart_instances : option Z) : M (list ChartSection) :=
  dtype_groups <- _classify_dtypes df ;;
  let numeric_cols := numeric dtype_groups in
  let categorical_cols := categorical dtype_groups in
  let time_cols := datetime dtype_groups ++ timelike dtype_groups in
  let chart_sections := [] in
  chart_sections <-
    section_if (truthy numeric_cols)
      (histograms_section df (slice_to numeric_cols max_chart_instances)
         dataframe_registry)
      chart_sections ;;
  chart_sections <-
    section_if (truthy categorical_cols)
      (let selected_categorical_cols :=
         slice_to categorical_cols max_chart_instances in
       categorical_histograms_section df selected_categorical_cols
         dataframe_registry)
      chart_sections ;;
  chart_sections <-
    section_if (Nat.leb 2 (List.length numeric_cols))
      (pairs <- lift (_select_first_k_pairs numeric_cols max_chart_instances) ;;
       scatter_section df pairs dataframe_registry)
      chart_sections ;;
  chart_sections <-
    section_if (truthy time_cols)
      (triples <- lift (_select_time_series_cols time_cols numeric_cols
                          categorical_cols max_chart_instances) ;;
       time_series_line_plots_section df triples dataframe_registry)
      chart_sections ;;
  chart_sections <-
    section_if (truthy numeric_cols)
      (value_plots_section df (slice_to numeric_cols max_chart_instances)
         dataframe_registry)
      chart_sections ;;
  chart_sections <-
    section_if (Nat.leb 2 (List.length categorical_cols))
      (pairs <- lift (_select_first_k_pairs categorical_cols max_chart_instances) ;;
       heatmaps_section df pairs dataframe_registry)
      chart_sections ;;
  chart_sections <-
    section_if (truthy categorical_cols && truthy numeric_cols)%bool
      (pairs <- lift (_select_faceted_numeric_cols numeric_cols categorical_cols
                        max_chart_instances) ;;
       faceted_distributions_section df pairs dataframe_registry)
      chart_sections ;;
  ret chart_sections.

(** The closure [_ensure_dataframe_registry] of [find_charts]. *)
Definition _ensure_dataframe_registry : M unit :=
  fun st =>
    match _DATAFRAME_REGISTRY st with
    | NoRegistry =>
        let variable_namespace :=
          match ipython_user_ns st with
          | Some user_ns => user_ns
          | None => []
          end in
        (inr tt,
         mk_state (ipython_user_ns st) (DataframeRegistry variable_namespace)
           (trace st))
    | _ => (inr tt, st)
    end.

(** Reading the module global. *)
Definition read_registry : M registry :=
  fun st => (inr (_DATAFRAME_REGISTRY st), st).

Definition no_charts_notice : string := "No charts were generated by quickchart".

Definition find_charts (df : DataFrame) (max_chart_instances : option Z)
  : M (list ChartSection) :=
  _ensure_dataframe_registry ;;;
  dataframe_registry <- read_registry ;;
  chart_sections <- determine_charts df dataframe_registry max_chart_instances ;;
  (if negb (truthy chart_sections) then emit (Print no_charts_notice)
   else ret tt) ;;;
  ret chart_sections.

End Orchestrator.

(** Modelled from the spec: an instance of the absent module
    [_quickchart_helpers].  A column tuple candidate is "the unit of work
    handed to chart construction for a given family": this collaborator
    makes one chart of every candidate, the chart being the family together
    with the labels of the candidate. *)
Definition one_chart_per_candidate : QuickchartHelpers := {|
  chart := family * list string;
  histograms := fun _ cols _ => map (fun c => (histogram, [c])) cols;
  categorical_histograms :=
    fun _ cols _ => map (fun c => (categorical_histogram, [c])) cols;
  scatter_plots :=
    fun _ pairs _ => map (fun p => (scatter, [fst p; snd p])) pairs;
  time_series_line_plots :=
    fun _ triples _ =>
      map (fun t =>
             (time_series_line,
              [fst (fst t); snd (fst t)]
                ++ match snd t with Some c => [c] | None => [] end))
          triples;
  value_plots := fun _ cols _ => map (fun c => (value_plot, [c])) cols;
  heatmaps := fun _ pairs _ => map (fun p => (heatmap, [fst p; snd p])) pairs;
  faceted_distributions :=
    fun _ pairs _ => map (fun p => (faceted_distribution, [fst p; snd p])) pairs
|}.

(** A fresh interpreter outside of IPython: no registry yet, nothing
    emitted. *)
Definition initial_state : state := mk_state None NoRegistry [].


(** ** The JSON entry point *)

(** What [find_charts_json] can raise: the [AttributeError] of
    [IPython.get_ipython()] being [None], the [KeyError] of a name that the
    user namespace does not bind, or whatever [determine_charts] raises. *)
Inductive json_exn : Type :=
| AttributeError (msg : string)
| KeyError (key : string)
| Propagated (e : exn).

Section JsonEntryPoint.

Context {helpers : QuickchartHelpers}.

(** Modelled from the spec: the method [to_json] of a chart section belongs
    to the absent module [_quickchart_helpers]; a section "exposes a JSON
    representation", left abstract here. *)
Variable json : Type.
Variable to_json : ChartSection -> json.

(** The objects of the user namespace: [objects n] is what the namespace
    binds to the key [n] when [n] is one of its keys (the keys are in
    [ipython_user_ns]); it is taken to be a data frame. *)
Variable objects : string -> DataFrame.

(** [find_charts_json]: the list is the payload of the
    [IPython.display.JSON] that is returned.  The registry handed on is the
    local [FixedDataframeRegistry] answering [df_name]; the module global
    is not consulted. *)
Definition find_charts_json (df_name : string) (max_chart_instances : option Z)
  : state -> (json_exn + list json) * state :=
  fun st =>
    match ipython_user_ns st with
    | None =>
        (inl (AttributeError "'NoneType' object has no attribute 'user_ns'"), st)
    | Some user_ns =>
        if contains user_ns df_name then
          let dataframe := objects df_name in
          match determine_charts dataframe (FixedDataframeRegistry df_name)
                  max_chart_instances st with
          | (inl e, st') => (inl (Propagated e), st')
          | (inr chart_sections, st') => (inr (map to_json chart_sections), st')
          end
        else (inl (KeyError df_name), st)
    end.

End JsonEntryPoint.
(** * Vocabulary of the properties *)

(** How often a label occurs in the five lists together. *)
Definition occurrences (x : string) (acc : primary_lists) : nat :=
  (count_occ string_dec (numeric_cols acc) x
   + count_occ string_dec (cat_cols acc) x
   + count_occ string_dec (datetime_cols acc) x
   + count_occ string_dec (singleton_cols acc) x
   + count_occ string_dec (filtered_cols acc) x)%nat.

(** The six primary groups of a classification, in the order of the
    result's keys ([timelike] is not one of them). *)
Definition primary_groups (g : dtype_groups) : list (list string) :=
  [numeric g; categorical g; large_categorical g; datetime g; singleton g;
   filtered g].


(** *** The timelike condition, as the specification words it *)

Definition has_prefix (s p : string) : Prop :=
  exists rest, s = (p ++ rest)%string.

Definition has_suffix (s p : string) : Prop :=
  exists front, s = (front ++ p)%string.

(** The lower-cased label starts or ends with one of the affixes, or is one
    of the tokens. *)
Definition name_is_timelike (colname : string) : Prop :=
  (exists p, In p ["date"; "datetime"; "time"; "timestamp"]%string
             /\ (has_prefix (lower colname) p \/ has_suffix (lower colname) p))
  \/ In (lower colname) ["dt"; "t"; "ts"; "year"]%string.

(** The storage dtype is a numpy dtype below [np.number]. *)
Definition native_numeric (d : Dtype) : Prop :=
  exists nd, d = NumpyDtype nd /\ np_issubdtype_number nd = true.

(** Every value is at most its successor. *)
Definition non_decreasing (vs : list value) : Prop :=
  forall i x y,
    nth_error vs i = Some x -> nth_error vs (S i) = Some y -> np_le x y = true.

(** Not an iterable container; strings and byte strings count as scalar. *)
Definition scalar (x : value) : Prop :=
  is_iterable x = true -> is_bytes_or_str x = true.

Definition timelike_condition (s : Series) : Prop :=
  (name_is_timelike (name s)
   \/ (native_numeric (dtype s) /\ non_decreasing (values s)))
  /\ Forall scalar (values s).

(** *** Example frames *)

(** An unsorted integer column with a plain label. *)
Definition unsorted_frame : DataFrame :=
  [mkSeries "x" (NumpyDtype (np_int 64)) [VInt 3; VInt 1; VInt 2]].

(** One numeric column, one small categorical column, and a datetime column
    labelled "date". *)
Definition sales_frame : DataFrame :=
  [mkSeries "x" (NumpyDtype (np_int 64)) [VInt 3; VInt 1; VInt 2];
   mkSeries "c" (NumpyDtype np_object) [VStr "a"; VStr "b"; VStr "a"];
   mkSeries "date" (NumpyDtype (np_datetime64 "ns"))
     [VTimestamp 1; VTimestamp 2; VTimestamp 3]].

(** *** Caps and cross products *)

(** A cap is absent or a count that [itertools.islice] accepts. *)
Definition cap_ok (k : option Z) : Prop :=
  match k with
  | None => True
  | Some z => 0 <= z <= sys_maxsize
  end.

(** The first [k] elements of a sequence; all of it without a cap. *)
Definition first_k {A : Type} (k : option Z) (l : list A) : list A :=
  match k with
  | None => l
  | Some z => firstn (Z.to_nat z) l
  end.



(** The value slot of a time-series tuple: a numeric column that is not a
    time column, or the token "count()". *)
Definition value_slots (time_cols numeric_cols : list string) : list string :=
  filter (fun c => if in_dec string_dec c time_cols then false else true)
         numeric_cols
  ++ ["count()"%string].

(** The series slot: a categorical column, or the one null placeholder when
    there is none. *)
Definition series_slots (categorical_cols : list string) : list (option string) :=
  match categorical_cols with
  | [] => [None]
  | _ :: _ => map Some categorical_cols
  end.


(** *** Events and plans *)

(** The state after some more events. *)
Definition add_events (st : state) (es : list event) : state :=
  mk_state (ipython_user_ns st) (_DATAFRAME_REGISTRY st) (trace st ++ es).

(** A computation whose every run only adds events satisfying [P],
    whether it returns or raises. *)
Definition emits_only {A : Type} (P : event -> Prop) (m : M A) : Prop :=
  forall st, exists es, snd (m st) = add_events st es /\ Forall P es.

(** The lines printed among some events. *)
Definition printed (es : list event) : list string :=
  flat_map (fun e => match e with Print line => [line] | _ => [] end) es.


Definition labels_of (c : candidates) : list string :=
  match c with
  | Columns cols => cols
  | Pairs pairs => flat_map (fun p => [fst p; snd p]) pairs
  | Triples triples =>
      flat_map (fun t => fst (fst t) :: snd (fst t)
                         :: match snd t with Some s => [s] | None => [] end)
               triples
  end.



(** The warning of the classifier, if any. *)
Definition warnings_of (df : DataFrame) : list event :=
  if truthy (filtered (classify df)) then [LogWarning (filtered (classify df))]
  else [].

(** The seven blocks of the orchestrator for a valid cap: the guard of each
    block, its family and the candidate sequence it hands over. *)
Definition plan (g : dtype_groups) (k : option Z)
  : list (bool * family * candidates) :=
  let numeric_cols := numeric g in
  let categorical_cols := categorical g in
  let time_cols := datetime g ++ timelike g in
  [(truthy numeric_cols, histogram, Columns (first_k k numeric_cols));
   (truthy categorical_cols, categorical_histogram,
    Columns (first_k k categorical_cols));
   (Nat.leb 2 (List.length numeric_cols), scatter,
    Pairs (first_k k (pairwise numeric_cols)));
   (truthy time_cols, time_series_line,
    Triples (first_k k (product3 time_cols (value_slots time_cols numeric_cols)
                          (series_slots categorical_cols))));
   (truthy numeric_cols, value_plot, Columns (first_k k numeric_cols));
   (Nat.leb 2 (List.length categorical_cols), heatmap,
    Pairs (first_k k (pairwise categorical_cols)));
   ((truthy categorical_cols && truthy numeric_cols)%bool, faceted_distribution,
    Pairs (first_k k (product numeric_cols categorical_cols)))].

Definition calls_of (steps : list (bool * family * candidates)) : list event :=
  flat_map
    (fun s : bool * family * candidates =>
       if fst (fst s) then [HelperCall (snd (fst s)) (snd s)] else [])
    steps.

Section Sections.

Context {helpers : QuickchartHelpers}.

(** The charts a family's builder makes of a candidate sequence. *)
Definition charts_for (df : DataFrame) (reg : registry) (f : family)
    (c : candidates) : list chart :=
  match f, c with
  | histogram, Columns cols => histograms df cols reg
  | categorical_histogram, Columns cols => categorical_histograms df cols reg
  | scatter, Pairs pairs => scatter_plots df pairs reg
  | time_series_line, Triples triples => time_series_line_plots df triples reg
  | value_plot, Columns cols => value_plots df cols reg
  | heatmap, Pairs pairs => heatmaps df pairs reg
  | faceted_distribution, Pairs pairs => faceted_distributions df pairs reg
  | _, _ => []
  end.

(** The sections kept of a plan: those whose block ran and made a chart. *)
Definition sections_of (df : DataFrame) (reg : registry)
    (steps : list (bool * family * candidates)) : list ChartSection :=
  flat_map
    (fun s : bool * family * candidates =>
       let made := charts_for df reg (snd (fst s)) (snd s) in
       if (fst (fst s) && truthy made)%bool then [mk_section (snd (fst s)) made]
       else [])
    steps.


End Sections.

(** An event the orchestrator can cause: a warning of the classifier, or a
    builder call whose candidate labels come from the numeric and the small
    categorical group or, for the time-series family, also from the time
    columns and the token "count()".  It prints nothing. *)
Definition reads_only (g : dtype_groups) (e : event) : Prop :=
  match e with
  | HelperCall f c =>
      forall n, In n (labels_of c) ->
        In n (numeric g ++ categorical g)
        \/ (f = time_series_line
            /\ (In n (datetime g ++ timelike g) \/ n = "count()"%string))
  | LogWarning _ => True
  | Print _ => False
  end.

(** Nine distinct strings in an object column labelled "date": a large
    categorical column whose label follows the naming convention. *)
Definition dated_labels_frame : DataFrame :=
  [mkSeries "date" (NumpyDtype np_object)
     [VStr "d1"; VStr "d2"; VStr "d3"; VStr "d4"; VStr "d5"; VStr "d6";
      VStr "d7"; VStr "d8"; VStr "d9"]].

(** *** The group of a single column *)

Inductive group : Type :=
| in_numeric
| in_categorical
| in_large_categorical
| in_datetime
| in_singleton
| in_filtered.

Definition group_eqb (a b : group) : bool :=
  match a, b with
  | in_numeric, in_numeric
  | in_categorical, in_categorical
  | in_large_categorical, in_large_categorical
  | in_datetime, in_datetime
  | in_singleton, in_singleton
  | in_filtered, in_filtered => true
  | _, _ => false
  end.

(** The number of distinct values of a column. *)
Definition nunique (s : Series) : nat := List.length (unique (values s)).

(** The group that the tests of the classifier, taken in their order, give
    to a column looked at by itself. *)
Definition group_of (s : Series) : group :=
  if negb (forallb is_hashable (values s)) then in_filtered
  else if Nat.leb (nunique s) 1 then in_singleton
  else if existsb (Dtype_eqb (dtype s)) _CATEGORICAL_DTYPES then
    if Nat.leb (nunique s) _CATEGORICAL_LARGE_SIZE_THRESHOLD then in_categorical
    else in_large_categorical
  else if (existsb (Dtype_eqb (dtype s)) _DATETIME_DTYPES
           || existsb (Ascii.eqb (kind (dtype s))) _DATETIME_DTYPE_KINDS)%bool
  then in_datetime
  else if is_numeric_dtype (dtype s) then in_numeric
  else in_filtered.

(** The labels, in frame order, of the columns of a group. *)
Definition members (G : group) (df : DataFrame) : list string :=
  map name (filter (fun s => group_eqb (group_of s) G) df).

(** The list that the classification holds for a group. *)
Definition group_list (G : group) (g : dtype_groups) : list string :=
  match G with
  | in_numeric => numeric g
  | in_categorical => categorical g
  | in_large_categorical => large_categorical g
  | in_datetime => datetime g
  | in_singleton => singleton g
  | in_filtered => filtered g
  end.

(** The per-column test of the timelike tag. *)
Definition is_timelike (s : Series) : bool :=
  ((_matches_datetime_pattern (name s) || _is_monotonically_increasing_numeric s)
   && _all_values_scalar s)%bool.

(** The columns that the first loop puts into [cat_cols]. *)
Definition is_categorical (s : Series) : bool :=
  (group_eqb (group_of s) in_categorical
   || group_eqb (group_of s) in_large_categorical)%bool.

(** Every value of the column can be hashed. *)
Definition all_hashable (s : Series) : Prop :=
  Forall (fun v => is_hashable v = true) (values s).

(** The dtype is [object] or [bool]. *)
Definition categorical_dtype (d : Dtype) : Prop :=
  d = NumpyDtype np_object \/ d = NumpyDtype np_bool.

(** The dtype has the datetime kind. *)
Definition datetime_dtype (d : Dtype) : Prop := kind d = "M"%char.

(** *** More example frames *)

(** A frame with one column of each kind: a constant integer column, an
    object column of lists, a timedelta column, a boolean column, a
    datetime column and an integer column. *)
Definition mixed_frame : DataFrame :=
  [mkSeries "n" (NumpyDtype (np_int 64)) [VInt 5; VInt 5; VInt 5];
   mkSeries "tags" (NumpyDtype np_object)
     [VList [VStr "a"]; VList []; VList [VStr "b"]];
   mkSeries "elapsed" (NumpyDtype (np_timedelta64 "ns"))
     [VTimedelta 30; VTimedelta 10; VTimedelta 20];
   mkSeries "flag" (NumpyDtype np_bool) [VBool true; VBool false; VBool true];
   mkSeries "when" (NumpyDtype (np_datetime64 "s"))
     [VTimestamp 3; VTimestamp 1; VTimestamp 2];
   mkSeries "x" (NumpyDtype (np_int 64)) [VInt 3; VInt 1; VInt 2]].

(** A float column with a missing value in the middle. *)
Definition gappy_frame : DataFrame :=
  [mkSeries "reading" (NumpyDtype (np_float 64))
     [VFloat 1%float; VFloat nan; VFloat 2%float]].

(** *** Counting candidates *)

(** [n] elements cut by a cap. *)
Definition capped (k : option Z) (n : nat) : nat :=
  match k with
  | None => n
  | Some z => Nat.min (Z.to_nat z) n
  end.

(** *** The orchestrator for every cap *)

(** The families in the order of the orchestrator's blocks. *)
Definition family_order : list family :=
  [histogram; categorical_histogram; scatter; time_series_line; value_plot;
   heatmap; faceted_distribution].

(** The position of a family in that order. *)
Definition family_rank (f : family) : nat :=
  match f with
  | histogram => 0
  | categorical_histogram => 1
  | scatter => 2
  | time_series_line => 3
  | value_plot => 4
  | heatmap => 5
  | faceted_distribution => 6
  end.

(** The guard of the block of a family. *)
Definition guard (g : dtype_groups) (f : family) : bool :=
  match f with
  | histogram | value_plot => truthy (numeric g)
  | categorical_histogram => truthy (categorical g)
  | scatter => Nat.leb 2 (List.length (numeric g))
  | time_series_line => truthy (datetime g ++ timelike g)
  | heatmap => Nat.leb 2 (List.length (categorical g))
  | faceted_distribution => (truthy (categorical g) && truthy (numeric g))%bool
  end.

(** The families of the builder calls among some events, in order. *)
Definition families_called (es : list event) : list family :=
  flat_map (fun e => match e with HelperCall f _ => [f] | _ => [] end) es.

(** A block of the orchestrator: its guard, its family, and the candidate
    sequence it would hand over or the exception its selector raises. *)
Definition block : Type := bool * family * (exn + candidates).

Definition block_guard (b : block) : bool := fst (fst b).
Definition block_family (b : block) : family := snd (fst b).

(** The seven blocks for any cap, valid or not. *)
Definition blocks_of (g : dtype_groups) (k : option Z) : list block :=
  let numeric_cols := numeric g in
  let categorical_cols := categorical g in
  let time_cols := datetime g ++ timelike g in
  let as_pairs (r : exn + list (string * string)) : exn + candidates :=
    match r with inl e => inl e | inr pairs => inr (Pairs pairs) end in
  let as_triples (r : exn + list (string * string * option string))
    : exn + candidates :=
    match r with inl e => inl e | inr triples => inr (Triples triples) end in
  [(truthy numeric_cols, histogram, inr (Columns (slice_to numeric_cols k)));
   (truthy categorical_cols, categorical_histogram,
    inr (Columns (slice_to categorical_cols k)));
   (Nat.leb 2 (List.length numeric_cols), scatter,
    as_pairs (_select_first_k_pairs numeric_cols k));
   (truthy time_cols, time_series_line,
    as_triples (_select_time_series_cols time_cols numeric_cols categorical_cols k));
   (truthy numeric_cols, value_plot, inr (Columns (slice_to numeric_cols k)));
   (Nat.leb 2 (List.length categorical_cols), heatmap,
    as_pairs (_select_first_k_pairs categorical_cols k));
   ((truthy categorical_cols && truthy numeric_cols)%bool, faceted_distribution,
    as_pairs (_select_faceted_numeric_cols numeric_cols categorical_cols k))].

Section Blocks.

Context {helpers : QuickchartHelpers}.

(** Running blocks one after the other: a block whose guard fails is
    skipped, a block whose selector raises ends the run, any other block
    calls its builder and keeps the section if it holds a chart. *)
Fixpoint run_blocks (df : DataFrame) (reg : registry) (blocks : list block)
    (chart_sections : list ChartSection) (st : state)
  : (exn + list ChartSection) * state :=
  match blocks with
  | [] => (inr chart_sections, st)
  | (cond, f, r) :: rest =>
      if cond then
        match r with
        | inl e => (inl e, st)
        | inr c =>
            let made := charts_for df reg f c in
            run_blocks df reg rest
              (if truthy made then chart_sections ++ [mk_section f made]
               else chart_sections)
              (add_events st [HelperCall f c])
        end
      else run_blocks df reg rest chart_sections st
  end.

(** A sequence of guarded builders, bound one after the other as in
    [determine_charts]. *)
Fixpoint chain (builders : list (bool * M ChartSection))
    (chart_sections : list ChartSection) : M (list ChartSection) :=
  match builders with
  | [] => ret chart_sections
  | (cond, build) :: rest =>
      bind (section_if cond build chart_sections) (chain rest)
  end.

(** A builder expression does what a block says. *)
Definition performs (df : DataFrame) (reg : registry)
    (builder : bool * M ChartSection) (b : block) : Prop :=
  fst builder = block_guard b
  /\ forall st,
      snd builder st
      = match snd b with
        | inl e => (inl e, st)
        | inr c =>
            call_helper (block_family b) c
              (charts_for df reg (block_family b) c) st
        end.

End Blocks.


(** Object columns whose values are equal numbers of different types. *)
Definition equal_numbers_frame : DataFrame :=
  [mkSeries "v" (NumpyDtype np_object) [VInt 1; VFloat 1%float];
   mkSeries "w" (NumpyDtype np_object) [VBool true; VFloat 1%float];
   mkSeries "p" (NumpyDtype np_object)
     [VTuple [VInt 1]; VTuple [VFloat 1%float]]].

(** The families whose block selects its candidates with
    [itertools.islice]. *)
Definition uses_islice (f : family) : bool :=
  match f with
  | scatter | time_series_line | heatmap | faceted_distribution => true
  | histogram | categorical_histogram | value_plot => false
  end.

(** The families of a list that come before its first family selecting
    with [islice]. *)
Fixpoint before_islice (l : list family) : list family :=
  match l with
  | [] => []
  | f :: rest => if uses_islice f then [] else f :: before_islice rest
  end.

(** The blocks of a list that come before its first block whose selector
    raises. *)
Fixpoint before_raise (blocks : list block) : list block :=
  match blocks with
  | [] => []
  | b :: rest =>
      match snd b with
      | inl _ => []
      | inr _ => b :: before_raise rest
      end
  end.
(** * Properties *)

(** ** Lists built by appending in a loop *)

Section AppendLoops.

Context {A : Type}.

(** A loop that appends the elements passing a test builds a filter. *)
Lemma fold_left_append_if (p : A -> bool) (l init : list A) :
  fold_left (fun acc x => if p x then acc ++ [x] else acc) l init
  = init ++ filter p l.
Proof.
  revert init. induction l as [|x l IH]; intros init; simpl.
  - now rewrite app_nil_r.
  - rewrite IH. destruct (p x); simpl; [now rewrite <- app_assoc|reflexivity].
Qed.

(** A loop that appends every element to one of two lists builds a
    partition. *)
Lemma fold_left_split (p : A -> bool) (l small large : list A) :
  fold_left
    (fun (acc : list A * list A) x =>
       let (s, g) := acc in if p x then (s ++ [x], g) else (s, g ++ [x]))
    l (small, large)
  = (small ++ filter p l, large ++ filter (fun x => negb (p x)) l).
Proof.
  revert small large. induction l as [|x l IH]; intros small large; simpl.
  - now rewrite !app_nil_r.
  - destruct (p x); simpl; rewrite IH, <- app_assoc; reflexivity.
Qed.

Lemma truthy_true (l : list A) : truthy l = true <-> l <> [].
Proof. destruct l; simpl; split; congruence. Qed.

Lemma truthy_false (l : list A) : truthy l = false <-> l = [].
Proof. destruct l; simpl; split; congruence. Qed.

End AppendLoops.

Lemma count_occ_filter_split (p : string -> bool) (l : list string) (x : string) :
  (count_occ string_dec (filter p l) x
   + count_occ string_dec (filter (fun c => negb (p c)) l) x
   = count_occ string_dec l x)%nat.
Proof.
  induction l as [|c l IH]; simpl; [reflexivity|].
  destruct (p c); simpl; destruct (string_dec c x); lia.
Qed.

Lemma contains_In (l : list string) (c : string) :
  contains l c = true <-> In c l.
Proof.
  unfold contains. rewrite existsb_exists. split.
  - intros [x [Hx Heq]]. apply String.eqb_eq in Heq. now subst.
  - intros H. exists c. split; [assumption|apply String.eqb_refl].
Qed.

Lemma contains_not_In (l : list string) (c : string) :
  contains l c = false <-> ~ In c l.
Proof.
  rewrite <- contains_In. destruct (contains l c); split; congruence.
Qed.

(** ** Looking a column up by its label *)

Lemma getitem_In (df : DataFrame) (s : Series) :
  well_formed df -> In s df -> getitem df (name s) = s.
Proof.
  unfold well_formed, columns, getitem.
  induction df as [|s0 df IH]; simpl; intros Hnd Hin; [contradiction|].
  inversion Hnd as [|? ? Hnotin Hnd']; subst.
  destruct Hin as [->|Hin].
  - now rewrite String.eqb_refl.
  - destruct (String.eqb (name s0) (name s)) eqn:E.
    + apply String.eqb_eq in E. exfalso. apply Hnotin. rewrite E.
      now apply in_map.
    + now apply IH.
Qed.

Lemma combine_columns_dtypes (df : DataFrame) :
  map fst (combine (columns df) (dtypes df)) = columns df.
Proof.
  unfold columns, dtypes. induction df as [|s df IH]; simpl; [reflexivity|].
  now rewrite IH.
Qed.

(** ** The first loop puts every column into one list *)

Section PrimaryGroups.

Variables (df : DataFrame) (categorical_dtypes datetime_dtypes : list Dtype).
Variables (datetime_dtype_kinds : list ascii).

Let step :=
  classify_step df categorical_dtypes datetime_dtypes datetime_dtype_kinds.

Lemma classify_step_occurrences (x : string) (acc : primary_lists)
    (item : string * Dtype) :
  occurrences x (step acc item)
  = (occurrences x acc + count_occ string_dec [fst item] x)%nat.
Proof.
  unfold step, classify_step, occurrences. destruct item as [c d], acc. cbn [fst].
  repeat match goal with
         | |- context [if ?b then _ else _] => destruct b
         end;
    cbn [numeric_cols cat_cols datetime_cols singleton_cols filtered_cols];
    rewrite ?count_occ_app; lia.
Qed.

Lemma classify_fold_occurrences (x : string) (items : list (string * Dtype))
    (acc : primary_lists) :
  occurrences x (fold_left step items acc)
  = (occurrences x acc + count_occ string_dec (map fst items) x)%nat.
Proof.
  revert acc. induction items as [|item items IH]; intros acc; simpl.
  - lia.
  - rewrite IH, classify_step_occurrences. simpl.
    destruct (string_dec (fst item) x); lia.
Qed.

Lemma classify_loop_occurrences (x : string) :
  occurrences x
    (classify_loop df categorical_dtypes datetime_dtypes datetime_dtype_kinds)
  = count_occ string_dec (columns df) x.
Proof.
  unfold classify_loop. fold step.
  rewrite classify_fold_occurrences, combine_columns_dtypes. reflexivity.
Qed.

End PrimaryGroups.

Lemma split_categoricals_eq (df : DataFrame) (threshold : nat) (cats : list string) :
  split_categoricals df threshold cats
  = (filter (fun c => Nat.leb (List.length (unique (values (getitem df c)))) threshold) cats,
     filter (fun c => negb (Nat.leb (List.length (unique (values (getitem df c)))) threshold)) cats).
Proof.
  unfold split_categoricals.
  exact (fold_left_split
           (fun c => Nat.leb (List.length (unique (values (getitem df c)))) threshold)
           cats [] []).
Qed.

Lemma primary_groups_count (df : DataFrame) (x : string) :
  count_occ string_dec (List.concat (primary_groups (classify df))) x
  = count_occ string_dec (columns df) x.
Proof.
  rewrite <- (classify_loop_occurrences df _CATEGORICAL_DTYPES _DATETIME_DTYPES
                _DATETIME_DTYPE_KINDS x).
  unfold classify, classify_with, primary_groups, occurrences.
  rewrite split_categoricals_eq. cbn [List.concat numeric categorical large_categorical
    datetime singleton filtered].
  rewrite !count_occ_app. simpl count_occ.
  pose proof (count_occ_filter_split
    (fun c => Nat.leb (List.length (unique (values (getitem df c))))
                _CATEGORICAL_LARGE_SIZE_THRESHOLD)
    (cat_cols (classify_loop df _CATEGORICAL_DTYPES _DATETIME_DTYPES
                 _DATETIME_DTYPE_KINDS)) x) as Hsplit.
  lia.
Qed.

Lemma primary_groups_permutation (df : DataFrame) :
  Permutation (List.concat (primary_groups (classify df))) (columns df).
Proof.
  apply (Permutation_count_occ string_dec). intros x. apply primary_groups_count.
Qed.

(** In a duplicate-free concatenation, a member lies in exactly one part. *)
Lemma exactly_one_part (parts : list (list string)) (c : string) :
  NoDup (List.concat parts) -> In c (List.concat parts) ->
  List.length (filter (fun part => contains part c) parts) = 1%nat.
Proof.
  induction parts as [|part parts IH]; simpl; intros Hnd Hin; [contradiction|].
  assert (Hout : ~ In c (List.concat parts) ->
                 filter (fun part => contains part c) parts = []).
  { clear. induction parts as [|p ps IH]; simpl; intros Hn; [reflexivity|].
    destruct (contains p c) eqn:E.
    - apply contains_In in E. exfalso. apply Hn, in_or_app. now left.
    - apply IH. intros H. apply Hn, in_or_app. now right. }
  apply NoDup_app_remove_l in Hnd as Hnd_rest.
  destruct (contains part c) eqn:E.
  - apply contains_In in E. simpl. rewrite Hout; [reflexivity|].
    intros H. revert Hnd E H. clear. induction part as [|a part IH]; simpl.
    + intros _ [].
    + intros Hnd [->|Hin] H.
      * inversion Hnd as [|? ? Hn _]; subst. apply Hn, in_or_app. now right.
      * inversion Hnd; subst. now apply IH.
  - apply contains_not_In in E. apply in_app_or in Hin as [Hin|Hin];
      [contradiction|]. now apply IH.
Qed.

Lemma timelike_loop_eq (df : DataFrame) :
  timelike_loop df
  = filter (fun colname =>
              (_matches_datetime_pattern colname
               || _is_monotonically_increasing_numeric (getitem df colname))
              && _all_values_scalar (getitem df colname))%bool
      (columns df).
Proof. unfold timelike_loop. now rewrite fold_left_append_if. Qed.

Lemma timelike_classify (df : DataFrame) :
  timelike (classify df) = timelike_loop df.
Proof.
  unfold classify, classify_with.
  destruct (split_categoricals _ _ _); reflexivity.
Qed.

(** C1: in a data frame with distinct column labels, the six primary groups
    (numeric, small categorical, large categorical, datetime, singleton,
    filtered) partition the columns: together they hold exactly the
    columns, no label twice, and every column lies in exactly one of them.
    The timelike list is not a primary group; it only holds columns of the
    frame, each of which keeps its primary group. *)
Theorem primary_groups_partition (df : DataFrame) :
  well_formed df ->
  Permutation (List.concat (primary_groups (classify df))) (columns df)
  /\ NoDup (List.concat (primary_groups (classify df)))
  /\ (forall c, In c (columns df) ->
        List.length
          (filter (fun group => contains group c) (primary_groups (classify df)))
        = 1%nat)
  /\ incl (timelike (classify df)) (columns df).
Proof.
  intros Hwf. pose proof (primary_groups_permutation df) as Hperm.
  assert (Hnd : NoDup (List.concat (primary_groups (classify df)))).
  { eapply Permutation_NoDup; [apply Permutation_sym, Hperm|exact Hwf]. }
  repeat split; try assumption.
  - intros c Hc. apply exactly_one_part; [assumption|].
    eapply Permutation_in; [apply Permutation_sym, Hperm|exact Hc].
  - intros c. rewrite timelike_classify, timelike_loop_eq, filter_In. tauto.
Qed.

Lemma sales_frame_well_formed : well_formed sales_frame.
Proof.
  repeat constructor; simpl; intuition discriminate.
Defined.

Lemma primary_groups_partition_sales :
  Permutation (List.concat (primary_groups (classify sales_frame)))
    (columns sales_frame)
  /\ NoDup (List.concat (primary_groups (classify sales_frame)))
  /\ (forall c, In c (columns sales_frame) ->
        List.length
          (filter (fun group => contains group c)
             (primary_groups (classify sales_frame)))
        = 1%nat)
  /\ incl (timelike (classify sales_frame)) (columns sales_frame).
Proof.
  exact (primary_groups_partition sales_frame sales_frame_well_formed).
Defined.

(** ** The timelike tag *)

Lemma startswith_spec (s p : string) :
  startswith s p = true <-> has_prefix s p.
Proof.
  unfold startswith, has_prefix. revert s.
  induction p as [|a p IH]; intros s; simpl.
  - split; [intros _; now exists s|intros _; destruct s; reflexivity].
  - destruct s as [|b s]; simpl.
    + split; [discriminate|intros [rest H]; discriminate].
    + destruct (ascii_dec a b) as [->|Hne].
      * rewrite IH. split; intros [rest H]; exists rest; [now rewrite H|].
        now inversion H.
      * split; [discriminate|]. intros [rest H]. inversion H. congruence.
Qed.

Lemma endswith_spec (s p : string) :
  endswith s p = true <-> has_suffix s p.
Proof.
  unfold has_suffix. induction s as [|a s IH]; cbn [endswith].
  - rewrite orb_false_r, String.eqb_eq. split.
    + intros <-. now exists EmptyString.
    + intros [front H]. destruct front; simpl in H; [assumption|discriminate].
  - rewrite orb_true_iff, IH, String.eqb_eq. split.
    + intros [<-|[front ->]]; [now exists EmptyString|].
      now exists (String a front).
    + intros [front H]. destruct front as [|b front]; simpl in H.
      * now left.
      * right. exists front. now inversion H.
Qed.

Lemma _matches_datetime_pattern_spec (colname : string) :
  _matches_datetime_pattern colname = true <-> name_is_timelike colname.
Proof.
  unfold _matches_datetime_pattern, name_is_timelike.
  rewrite orb_true_iff, !existsb_exists.
  unfold _DATETIME_COLNAME_PATTERNS, _DATETIME_COLNAMES.
  split; (intros [[p [Hp H]]|H]; [left; exists p; split; [exact Hp|]|right]).
  - apply orb_true_iff in H.
    destruct H as [H|H]; [left; now apply startswith_spec|right; now apply endswith_spec].
  - destruct H as [c [Hc H]]. apply String.eqb_eq in H. now rewrite H.
  - apply orb_true_iff.
    destruct H as [H|H]; [left; now apply startswith_spec|right; now apply endswith_spec].
  - exists (lower colname). split; [exact H|apply String.eqb_refl].
Qed.

Lemma non_decreasing_spec (vs : list value) :
  np_all (np_le_array (removelast vs) (tl vs)) = true <-> non_decreasing vs.
Proof.
  unfold np_all, np_le_array, non_decreasing.
  induction vs as [|a vs IH]; [|destruct vs as [|b vs]].
  - simpl. split; [|reflexivity]. intros _ i x y H. destruct i; discriminate.
  - simpl. split; [|reflexivity]. intros _ i x y _ H. destruct i; discriminate.
  - change (removelast (a :: b :: vs)) with (a :: removelast (b :: vs)).
    cbn [tl combine map forallb fst snd]. cbn [tl] in IH.
    rewrite andb_true_iff, IH. split.
    + intros [Hab Hrest] i x y Hx Hy. destruct i as [|i].
      * simpl in Hx, Hy. now inversion Hx; inversion Hy; subst.
      * exact (Hrest i x y Hx Hy).
    + intros H. split.
      * exact (H 0%nat a b eq_refl eq_refl).
      * intros i x y Hx Hy. exact (H (S i) x y Hx Hy).
Qed.

Lemma _is_monotonically_increasing_numeric_spec (s : Series) :
  _is_monotonically_increasing_numeric s = true
  <-> native_numeric (dtype s) /\ non_decreasing (values s).
Proof.
  unfold _is_monotonically_increasing_numeric, native_numeric.
  destruct (dtype s) as [nd|n k b].
  - rewrite andb_true_iff, non_decreasing_spec. split.
    + intros [Hn Hm]. split; [now exists nd|assumption].
    + intros [[nd' [Heq Hn]] Hm]. inversion Heq; subst. now split.
  - split; [discriminate|]. intros [[nd [Heq _]] _]. discriminate.
Qed.

Lemma _all_values_scalar_spec (s : Series) :
  _all_values_scalar s = true <-> Forall scalar (values s).
Proof.
  unfold _all_values_scalar, scalar, _is_non_scalar.
  rewrite negb_true_iff, Forall_forall. split.
  - intros H x Hx Hit.
    destruct (is_bytes_or_str x) eqn:E; [reflexivity|].
    assert (existsb (fun x => is_iterable x && negb (is_bytes_or_str x)) (values s)
            = true) as Hex.
    { apply existsb_exists. exists x. now rewrite Hit, E. }
    congruence.
  - intros H.
    destruct (existsb _ (values s)) eqn:E; [|reflexivity].
    apply existsb_exists in E as [x [Hx Hnon]].
    apply andb_true_iff in Hnon as [Hit Hnot].
    rewrite (H x Hx Hit) in Hnot. discriminate.
Qed.

(** The tag of a column of a well-formed frame. *)
Lemma timelike_tag_iff (df : DataFrame) (s : Series) :
  well_formed df -> In s df ->
  (In (name s) (timelike (classify df)) <-> timelike_condition s).
Proof.
  intros Hwf Hs.
  rewrite timelike_classify, timelike_loop_eq, filter_In.
  rewrite (getitem_In df s Hwf Hs).
  rewrite andb_true_iff, orb_true_iff, _matches_datetime_pattern_spec,
    _is_monotonically_increasing_numeric_spec, _all_values_scalar_spec.
  unfold timelike_condition, columns. split; [tauto|].
  intros H. split; [now apply in_map|exact H].
Qed.

(** C3: in a data frame with distinct column labels, a column is tagged
    timelike exactly when (its lower-cased label starts or ends with "date",
    "datetime", "time" or "timestamp", or is "dt", "t", "ts" or "year"; or
    its dtype is a native numeric array type and its values are
    non-decreasing from one end to the other) and every one of its values
    is scalar.  In particular a column whose label does not match and whose
    values are not non-decreasing, such as the numeric column [3, 1, 2]
    labelled "x", is not tagged. *)
Theorem timelike_iff (df : DataFrame) (s : Series) :
  well_formed df -> In s df ->
  (In (name s) (timelike (classify df)) <-> timelike_condition s)
  /\ (~ name_is_timelike (name s) -> ~ non_decreasing (values s) ->
      ~ In (name s) (timelike (classify df))).
Proof.
  intros Hwf Hs. pose proof (timelike_tag_iff df s Hwf Hs) as Hiff.
  split; [exact Hiff|].
  intros Hname Hmono Hin. apply Hiff in Hin.
  unfold timelike_condition in Hin. tauto.
Qed.

Lemma unsorted_frame_well_formed : well_formed unsorted_frame.
Proof. repeat constructor; simpl; tauto. Defined.

Lemma timelike_iff_unsorted :
  ~ In "x"%string (timelike (classify unsorted_frame)).
Proof.
  refine (proj2 (timelike_iff unsorted_frame
                   (mkSeries "x" (NumpyDtype (np_int 64)) [VInt 3; VInt 1; VInt 2])
                   unsorted_frame_well_formed (or_introl eq_refl)) _ _).
  - intros H. apply _matches_datetime_pattern_spec in H. vm_compute in H.
    discriminate.
  - intros H. apply non_decreasing_spec in H. vm_compute in H. discriminate.
Defined.

(** ** Slices and products *)

Lemma islice_ok {A : Type} (l : list A) (k : option Z) :
  cap_ok k -> islice l k = inr (first_k k l).
Proof.
  destruct k as [z|]; simpl; [|reflexivity]. intros [Hlo Hhi].
  destruct (z <? 0) eqn:E1; [apply Z.ltb_lt in E1; lia|].
  destruct (sys_maxsize <? z) eqn:E2; [apply Z.ltb_lt in E2; lia|].
  reflexivity.
Qed.

Lemma slice_to_ok {A : Type} (l : list A) (k : option Z) :
  cap_ok k -> slice_to l k = first_k k l.
Proof.
  destruct k as [z|]; simpl; [|reflexivity]. intros [Hlo _].
  destruct (z <? 0) eqn:E1; [apply Z.ltb_lt in E1; lia|reflexivity].
Qed.





Lemma product_nil_r {A B : Type} (xs : list A) :
  product xs (@nil B) = [].
Proof. unfold product. induction xs; simpl; auto. Qed.


Lemma product3_product {A B C : Type} (xs : list A) (ys : list B) (zs : list C) :
  product3 xs ys zs
  = map (fun t => (fst t, fst (snd t), snd (snd t))) (product xs (product ys zs)).
Proof.
  unfold product3, product. induction xs as [|x xs IH]; simpl; [reflexivity|].
  rewrite map_app, IH. f_equal.
  rewrite map_map. cbn [fst snd]. clear IH.
  induction ys as [|y ys IHy]; simpl; [reflexivity|].
  rewrite map_app, map_map, IHy. reflexivity.
Qed.

Lemma in_product3 {A B C : Type} (xs : list A) (ys : list B) (zs : list C)
    (x : A) (y : B) (z : C) :
  In (x, y, z) (product3 xs ys zs) <-> In x xs /\ In y ys /\ In z zs.
Proof.
  unfold product3. rewrite in_flat_map. split.
  - intros [x' [Hx H]]. apply in_flat_map in H as [y' [Hy H]].
    apply in_map_iff in H as [z' [Heq Hz]]. inversion Heq; subst. auto.
  - intros [Hx [Hy Hz]]. exists x. split; [assumption|].
    apply in_flat_map. exists y. split; [assumption|].
    apply in_map_iff. now exists z.
Qed.

(** ** The selectors *)

Lemma stripped_numeric (time_cols numeric_cols : list string) :
  filter (fun c => negb (contains time_cols c)) numeric_cols ++ ["count()"%string]
  = value_slots time_cols numeric_cols.
Proof.
  unfold value_slots. f_equal. apply filter_ext. intros c.
  destruct (in_dec string_dec c time_cols) as [Hin|Hout].
  - apply contains_In in Hin. now rewrite Hin.
  - apply contains_not_In in Hout. now rewrite Hout.
Qed.

Lemma series_slots_eq (categorical_cols : list string) :
  (if negb (truthy categorical_cols) then [None] else map Some categorical_cols)
  = series_slots categorical_cols.
Proof. destruct categorical_cols; reflexivity. Qed.





Lemma cap_two : cap_ok (Some 2).
Proof. unfold cap_ok, sys_maxsize. lia. Defined.






(** ** Running the orchestrator *)

Lemma add_events_nil (st : state) : add_events st [] = st.
Proof. destruct st. unfold add_events. simpl. now rewrite app_nil_r. Qed.

Lemma add_events_app (st : state) (es1 es2 : list event) :
  add_events (add_events st es1) es2 = add_events st (es1 ++ es2).
Proof. unfold add_events. simpl. now rewrite app_assoc. Qed.

Lemma bind_inr {A B : Type} (m : M A) (f : A -> M B) (st st' : state) (a : A) :
  m st = (inr a, st') -> bind m f st = f a st'.
Proof. unfold bind. now intros ->. Qed.

Lemma filtered_classify (df : DataFrame) :
  filtered (classify df)
  = filtered_cols
      (classify_loop df _CATEGORICAL_DTYPES _DATETIME_DTYPES _DATETIME_DTYPE_KINDS).
Proof.
  unfold classify, classify_with. destruct (split_categoricals _ _ _); reflexivity.
Qed.

Lemma _classify_dtypes_run (df : DataFrame) (st : state) :
  _classify_dtypes df st = (inr (classify df), add_events st (warnings_of df)).
Proof.
  unfold _classify_dtypes, warnings_of. rewrite <- filtered_classify.
  unfold bind. destruct (truthy (filtered (classify df))).
  - reflexivity.
  - unfold ret. now rewrite add_events_nil.
Qed.

Section Running.

Context {helpers : QuickchartHelpers}.

Lemma call_helper_run (f : family) (c : candidates) (made : list chart)
    (st : state) :
  call_helper f c made st = (inr (mk_section f made), add_events st [HelperCall f c]).
Proof. reflexivity. Qed.

(** One block of the orchestrator, when the builder is reached. *)
Lemma section_if_run (cond : bool) (f : family) (c : candidates)
    (made : list chart) (build : M ChartSection)
    (chart_sections : list ChartSection) (st : state) :
  (cond = true -> build st = call_helper f c made st) ->
  section_if cond build chart_sections st
  = (inr (chart_sections
          ++ (if (cond && truthy made)%bool then [mk_section f made] else [])),
     add_events st (if cond then [HelperCall f c] else [])).
Proof.
  intros Hbuild. unfold section_if. destruct cond; simpl.
  - unfold bind. rewrite (Hbuild eq_refl), call_helper_run. simpl.
    destruct (truthy made); unfold ret; [reflexivity|now rewrite app_nil_r].
  - unfold ret. now rewrite add_events_nil, app_nil_r.
Qed.

(** With a valid cap no selector raises: the orchestrator runs its plan,
    returns the sections that hold a chart and has emitted the classifier's
    warning and one call per block that ran. *)
Lemma determine_charts_run (df : DataFrame) (reg : registry) (k : option Z)
    (st : state) :
  cap_ok k ->
  determine_charts df reg k st
  = (inr (sections_of df reg (plan (classify df) k)),
     add_events st (warnings_of df ++ calls_of (plan (classify df) k))).
Proof.
  intros Hk. unfold determine_charts.
  rewrite (bind_inr _ _ _ _ _ (_classify_dtypes_run df st)).
  set (g := classify df).
  unfold _select_first_k_pairs, _select_faceted_numeric_cols,
    _select_time_series_cols.
  rewrite stripped_numeric, series_slots_eq.
  rewrite !islice_ok, !slice_to_ok by exact Hk.
  repeat (erewrite bind_inr; [|apply section_if_run; intros _; reflexivity]).
  unfold ret, sections_of, calls_of, plan.
  cbn [flat_map fst snd charts_for].
  rewrite !add_events_app. rewrite <- !app_assoc. cbn [app].
  rewrite ?app_nil_r. reflexivity.
Qed.

End Running.

(** ** What the orchestrator hands to the builders *)




Section Handing.

Context {helpers : QuickchartHelpers}.



End Handing.



(** ** The end-to-end example *)



Section EndToEnd.

Context {helpers : QuickchartHelpers}.


End EndToEnd.



(** ** The time-axis list *)

Lemma _select_time_series_cols_run
    (time_cols numeric_cols categorical_cols : list string) (k : option Z) :
  cap_ok k ->
  _select_time_series_cols time_cols numeric_cols categorical_cols k
  = inr (first_k k (product3 time_cols (value_slots time_cols numeric_cols)
                      (series_slots categorical_cols))).
Proof.
  intros Hk. unfold _select_time_series_cols.
  rewrite stripped_numeric, series_slots_eq. now apply islice_ok.
Qed.

Lemma primary_groups_NoDup (df : DataFrame) :
  well_formed df -> NoDup (List.concat (primary_groups (classify df))).
Proof.
  intros Hwf. eapply Permutation_NoDup; [|exact Hwf].
  apply Permutation_sym, primary_groups_permutation.
Qed.

Lemma datetime_NoDup (df : DataFrame) :
  well_formed df -> NoDup (datetime (classify df)).
Proof.
  intros Hwf. pose proof (primary_groups_NoDup df Hwf) as H.
  unfold primary_groups in H. cbn [List.concat] in H.
  do 3 apply NoDup_app_remove_l in H. now apply NoDup_app_remove_r in H.
Qed.

Lemma timelike_NoDup (df : DataFrame) :
  well_formed df -> NoDup (timelike (classify df)).
Proof.
  intros Hwf. rewrite timelike_classify, timelike_loop_eq.
  now apply NoDup_filter.
Qed.

Section TimeAxis.

Context {helpers : QuickchartHelpers}.

(** C10: the time-axis list of the orchestrator is the datetime group
    followed by the timelike list: whenever it is not empty, the
    time-series builder is handed the tuples selected from that
    concatenation.  A column that is both in the datetime group and tagged
    timelike occurs twice in it, and for the frame with a datetime column
    labelled "date" the time-series candidate sequence repeats tuples. *)
Theorem time_axis_repeats_datetime_timelike :
  (forall df reg k st,
      cap_ok k ->
      datetime (classify df) ++ timelike (classify df) <> [] ->
      exists triples,
        _select_time_series_cols
          (datetime (classify df) ++ timelike (classify df))
          (numeric (classify df)) (categorical (classify df)) k
        = inr triples
        /\ In (HelperCall time_series_line (Triples triples))
              (trace (snd (determine_charts df reg k st))))
  /\ (forall df c,
         well_formed df ->
         In c (datetime (classify df)) -> In c (timelike (classify df)) ->
         count_occ string_dec
           (datetime (classify df) ++ timelike (classify df)) c = 2%nat)
  /\ (exists df,
         well_formed df
         /\ (exists c, In c (datetime (classify df))
                       /\ In c (timelike (classify df)))
         /\ forall reg st,
             exists triples,
               In (HelperCall time_series_line (Triples triples))
                  (trace (snd (determine_charts df reg None st)))
               /\ ~ NoDup triples).
Proof.
  assert (Hcall : forall df reg k st,
             cap_ok k ->
             datetime (classify df) ++ timelike (classify df) <> [] ->
             In (HelperCall time_series_line
                   (Triples
                      (first_k k
                         (product3
                            (datetime (classify df) ++ timelike (classify df))
                            (value_slots
                               (datetime (classify df) ++ timelike (classify df))
                               (numeric (classify df)))
                            (series_slots (categorical (classify df)))))))
                (trace (snd (determine_charts df reg k st)))).
  { intros df reg k st Hk Htime.
    rewrite (determine_charts_run df reg k st Hk). cbn [snd add_events trace].
    apply in_or_app. right. apply in_or_app. right.
    unfold calls_of, plan. cbn [flat_map fst snd].
    apply truthy_true in Htime. rewrite Htime.
    do 3 (apply in_or_app; right). apply in_or_app. left. now left. }
  split; [|split].
  - intros df reg k st Hk Htime. eexists. split.
    + now apply _select_time_series_cols_run.
    + now apply Hcall.
  - intros df c Hwf Hd Ht. rewrite count_occ_app.
    pose proof (datetime_NoDup df Hwf) as Hnd.
    pose proof (timelike_NoDup df Hwf) as Hnt.
    rewrite (NoDup_count_occ' string_dec) in Hnd, Hnt.
    now rewrite (Hnd c Hd), (Hnt c Ht).
  - exists sales_frame. split; [exact sales_frame_well_formed|]. split.
    + exists "date"%string. split; vm_compute; tauto.
    + intros reg st. eexists. split.
      * apply (Hcall sales_frame reg None st I). vm_compute. discriminate.
      * vm_compute. intros Hnd.
        inversion Hnd as [|? ? Hnotin _]; subst. apply Hnotin.
        right. now left.
Qed.

End TimeAxis.

Lemma time_axis_repeats_sales :
  count_occ string_dec
    (datetime (classify sales_frame) ++ timelike (classify sales_frame))
    "date"%string = 2%nat.
Proof.
  refine (proj1 (proj2 (@time_axis_repeats_datetime_timelike one_chart_per_candidate))
            sales_frame "date"%string sales_frame_well_formed _ _);
    vm_compute; tauto.
Defined.

(** ** Which groups the orchestrator reads *)

Section EmitsOnly.

Context {A B : Type} (P : event -> Prop).

Lemma emits_only_ret (a : A) : emits_only P (ret a).
Proof.
  intros st. exists []. split; [symmetry; apply add_events_nil|constructor].
Qed.

Lemma emits_only_emit (e : event) : P e -> emits_only P (emit e).
Proof.
  intros He st. exists [e]. split; [reflexivity|now constructor].
Qed.

Lemma emits_only_bind (m : M A) (f : A -> M B) :
  emits_only P m -> (forall a, emits_only P (f a)) -> emits_only P (bind m f).
Proof.
  intros Hm Hf st. destruct (Hm st) as [es1 [Hst1 Hes1]].
  unfold bind. destruct (m st) as [[e|a] st1]; cbn [snd] in *.
  - now exists es1.
  - destruct (Hf a st1) as [es2 [Hst2 Hes2]]. exists (es1 ++ es2). split.
    + now rewrite Hst2, Hst1, add_events_app.
    + apply Forall_app. now split.
Qed.

(** A value or an exception emits nothing; what follows a value only has to
    behave for that value. *)
Lemma emits_only_lift_bind (r : exn + A) (f : A -> M B) :
  (forall a, r = inr a -> emits_only P (f a)) -> emits_only P (bind (lift r) f).
Proof.
  intros Hf st. unfold bind, lift. destruct r as [e|a].
  - exists []. split; [symmetry; apply add_events_nil|constructor].
  - exact (Hf a eq_refl st).
Qed.

(** A computation that always returns the same value can be followed by a
    continuation that only has to behave for that value. *)
Lemma emits_only_bind_value (m : M A) (f : A -> M B) (a0 : A) :
  (forall st, exists es, m st = (inr a0, add_events st es) /\ Forall P es) ->
  emits_only P (f a0) -> emits_only P (bind m f).
Proof.
  intros Hm Hf st. destruct (Hm st) as [es1 [Hst1 Hes1]].
  unfold bind. rewrite Hst1.
  destruct (Hf (add_events st es1)) as [es2 [Hst2 Hes2]].
  exists (es1 ++ es2). split.
  - now rewrite Hst2, add_events_app.
  - apply Forall_app. now split.
Qed.

End EmitsOnly.

Lemma In_firstn {A : Type} (n : nat) (l : list A) (x : A) :
  In x (firstn n l) -> In x l.
Proof.
  revert l. induction n as [|n IH]; intros l; simpl; [contradiction|].
  destruct l as [|a l]; simpl; [contradiction|].
  intros [H|H]; [now left|right; now apply IH].
Qed.

Lemma slice_to_incl {A : Type} (l : list A) (k : option Z) (x : A) :
  In x (slice_to l k) -> In x l.
Proof.
  destruct k as [z|]; simpl; [|auto].
  destruct (z <? 0); apply In_firstn.
Qed.

Lemma islice_incl {A : Type} (l r : list A) (k : option Z) (x : A) :
  islice l k = inr r -> In x r -> In x l.
Proof.
  destruct k as [z|]; simpl.
  - destruct ((z <? 0) || (sys_maxsize <? z))%bool; [discriminate|].
    intros H. inversion H; subst. apply In_firstn.
  - intros H. inversion H; subst. auto.
Qed.

Lemma pairwise_In {A : Type} (l : list A) (a b : A) :
  In (a, b) (pairwise l) -> In a l /\ In b l.
Proof.
  induction l as [|x l IH]; [contradiction|].
  destruct l as [|y l]; [contradiction|].
  change (pairwise (x :: y :: l)) with ((x, y) :: pairwise (y :: l)).
  intros [H|H].
  - inversion H; subst. split; [now left|right; now left].
  - destruct (IH H) as [Ha Hb]. split; now right.
Qed.

Lemma in_product {A B : Type} (xs : list A) (ys : list B) (x : A) (y : B) :
  In (x, y) (product xs ys) <-> In x xs /\ In y ys.
Proof.
  unfold product. rewrite in_flat_map. split.
  - intros [x' [Hx H]]. apply in_map_iff in H as [y' [Heq Hy]].
    inversion Heq; subst. auto.
  - intros [Hx Hy]. exists x. split; [assumption|]. apply in_map_iff. now exists y.
Qed.

Section Reads.

Context {helpers : QuickchartHelpers}.

Lemma emits_only_call_helper (P : event -> Prop) (f : family) (c : candidates)
    (made : list chart) :
  P (HelperCall f c) -> emits_only P (call_helper f c made).
Proof.
  intros H. unfold call_helper. apply emits_only_bind.
  - now apply emits_only_emit.
  - intros _. apply emits_only_ret.
Qed.

Lemma emits_only_section_if (P : event -> Prop) (cond : bool)
    (build : M ChartSection) (chart_sections : list ChartSection) :
  emits_only P build -> emits_only P (section_if cond build chart_sections).
Proof.
  intros H. unfold section_if. destruct cond.
  - apply emits_only_bind; [exact H|]. intros section. apply emits_only_ret.
  - apply emits_only_ret.
Qed.

(** For every cap, valid or not, the orchestrator only emits the
    classifier's warning and builder calls over the groups it reads. *)
Lemma determine_charts_reads_only (df : DataFrame) (reg : registry)
    (k : option Z) :
  emits_only (reads_only (classify df)) (determine_charts df reg k).
Proof.
  unfold determine_charts.
  apply emits_only_bind_value with (a0 := classify df).
  { intros st. exists (warnings_of df). split; [apply _classify_dtypes_run|].
    unfold warnings_of. destruct (truthy _); repeat constructor. }
  set (g := classify df).
  repeat (apply emits_only_bind;
          [apply emits_only_section_if|intros ?chart_sections]);
    try apply emits_only_ret.
  - apply emits_only_call_helper. intros n Hn. left.
    apply in_or_app. left. exact (slice_to_incl _ _ _ Hn).
  - apply emits_only_call_helper. intros n Hn. left.
    apply in_or_app. right. exact (slice_to_incl _ _ _ Hn).
  - apply emits_only_lift_bind. intros pairs Hsel.
    apply emits_only_call_helper. intros n Hn. left. apply in_or_app. left.
    cbn [labels_of] in Hn. apply in_flat_map in Hn as [[a b] [Hp Hn]].
    apply (islice_incl _ _ _ _ Hsel), pairwise_In in Hp as [Ha Hb].
    destruct Hn as [<-|[<-|[]]]; assumption.
  - apply emits_only_lift_bind. intros triples Hsel.
    apply emits_only_call_helper. intros n Hn.
    cbn [labels_of] in Hn. apply in_flat_map in Hn as [[[t v] s] [Hp Hn]].
    apply (islice_incl _ _ _ _ Hsel), in_product3 in Hp as [Ht [Hv Hs]].
    cbn [fst snd] in Hn. destruct Hn as [<-|[<-|Hn]].
    + right. split; [reflexivity|now left].
    + apply in_app_or in Hv as [Hv|[<-|[]]].
      * left. apply in_or_app. left. now apply filter_In in Hv.
      * right. split; [reflexivity|now right].
    + destruct s as [c|]; [|contradiction]. destruct Hn as [<-|[]].
      left. apply in_or_app. right.
      destruct (truthy (categorical g)); cbn [negb] in Hs.
      * apply in_map_iff in Hs as [c' [Heq Hc]]. now inversion Heq; subst.
      * destruct Hs as [Hs|[]]. discriminate.
  - apply emits_only_call_helper. intros n Hn. left.
    apply in_or_app. left. exact (slice_to_incl _ _ _ Hn).
  - apply emits_only_lift_bind. intros pairs Hsel.
    apply emits_only_call_helper. intros n Hn. left. apply in_or_app. right.
    cbn [labels_of] in Hn. apply in_flat_map in Hn as [[a b] [Hp Hn]].
    apply (islice_incl _ _ _ _ Hsel), pairwise_In in Hp as [Ha Hb].
    destruct Hn as [<-|[<-|[]]]; assumption.
  - apply emits_only_lift_bind. intros pairs Hsel.
    apply emits_only_call_helper. intros n Hn. left.
    cbn [labels_of] in Hn. apply in_flat_map in Hn as [[a b] [Hp Hn]].
    apply (islice_incl _ _ _ _ Hsel), in_product in Hp as [Ha Hb].
    apply in_or_app. destruct Hn as [<-|[<-|[]]]; [now left|now right].
Qed.

End Reads.

(** In a well-formed frame a label lies in at most one primary group. *)
Lemma primary_groups_at_most_once (df : DataFrame) (n : string) :
  well_formed df ->
  (count_occ string_dec (numeric (classify df)) n
   + count_occ string_dec (categorical (classify df)) n
   + count_occ string_dec (large_categorical (classify df)) n
   + count_occ string_dec (datetime (classify df)) n
   + count_occ string_dec (singleton (classify df)) n
   + count_occ string_dec (filtered (classify df)) n <= 1)%nat.
Proof.
  intros Hwf. pose proof (primary_groups_count df n) as Hsum.
  unfold primary_groups in Hsum. cbn [List.concat] in Hsum.
  rewrite !count_occ_app in Hsum. simpl count_occ in Hsum.
  apply (NoDup_count_occ string_dec) with (x := n) in Hwf. lia.
Qed.

Section Unread.

Context {helpers : QuickchartHelpers}.

(** C9, as the code has it: for every well-formed frame and every cap, the
    orchestrator builds its candidate tuples from the numeric, the small
    categorical, the datetime and the timelike lists only.  The label of a
    large categorical, singleton or filtered column therefore occurs in a
    candidate tuple only of the time-series family, and only when the
    column is also tagged timelike or when the label is spelled like the
    aggregate token "count()". *)
Theorem unread_groups_only_as_time_columns (df : DataFrame) (reg : registry)
    (k : option Z) (st : state) :
  well_formed df ->
  exists es,
    snd (determine_charts df reg k st) = add_events st es
    /\ Forall (reads_only (classify df)) es
    /\ forall f c n,
        In (HelperCall f c) es -> In n (labels_of c) ->
        In n (large_categorical (classify df) ++ singleton (classify df)
              ++ filtered (classify df)) ->
        f = time_series_line
        /\ (In n (timelike (classify df)) \/ n = "count()"%string).
Proof.
  intros Hwf.
  destruct (determine_charts_reads_only df reg k st) as [es [Hst Hes]].
  exists es. split; [exact Hst|]. split; [exact Hes|].
  intros f c n Hcall Hn Hunread.
  rewrite Forall_forall in Hes. specialize (Hes _ Hcall n Hn).
  pose proof (primary_groups_at_most_once df n Hwf) as Honce.
  assert (Hpos : (0 < count_occ string_dec (large_categorical (classify df)) n
                     + count_occ string_dec (singleton (classify df)) n
                     + count_occ string_dec (filtered (classify df)) n)%nat).
  { apply in_app_or in Hunread as [H|H]; [|apply in_app_or in H as [H|H]];
      apply (count_occ_In string_dec) in H; lia. }
  destruct Hes as [Hread|[Hf [Htime|Hcount]]].
  - exfalso. apply in_app_or in Hread as [H|H];
      apply (count_occ_In string_dec) in H; lia.
  - split; [exact Hf|]. apply in_app_or in Htime as [H|H]; [|now left].
    exfalso. apply (count_occ_In string_dec) in H. lia.
  - split; [exact Hf|now right].
Qed.

(** The events of the orchestrator hold no printed line. *)
Lemma reads_only_printed (g : dtype_groups) (es : list event) :
  Forall (reads_only g) es -> printed es = [].
Proof.
  induction 1 as [|e es He _ IH]; [reflexivity|].
  unfold printed in *. cbn [flat_map]. rewrite IH.
  destruct e; [reflexivity|contradiction|reflexivity].
Qed.

Lemma _ensure_dataframe_registry_run (st : state) :
  _ensure_dataframe_registry st = (inr tt, snd (_ensure_dataframe_registry st))
  /\ trace (snd (_ensure_dataframe_registry st)) = trace st.
Proof.
  unfold _ensure_dataframe_registry.
  destruct (_DATAFRAME_REGISTRY st); split; reflexivity.
Qed.

(** C8: when the orchestrator, run with the registry that [find_charts] has
    ensured, returns no section, [find_charts] returns the empty list by a
    normal return, and of all it emits exactly one is a printed line: the
    notice that no charts were generated. *)
Theorem find_charts_no_charts (df : DataFrame) (k : option Z) (st st' : state) :
  determine_charts df
    (_DATAFRAME_REGISTRY (snd (_ensure_dataframe_registry st))) k
    (snd (_ensure_dataframe_registry st))
  = (inr [], st') ->
  exists es,
    find_charts df k st = (inr [], add_events st' [Print no_charts_notice])
    /\ trace (add_events st' [Print no_charts_notice]) = trace st ++ es
    /\ printed es = [no_charts_notice].
Proof.
  intros Hrun.
  destruct (_ensure_dataframe_registry_run st) as [Hensure Htrace].
  set (st0 := snd (_ensure_dataframe_registry st)) in *.
  destruct (determine_charts_reads_only df (_DATAFRAME_REGISTRY st0) k st0)
    as [es [Hst Hes]].
  rewrite Hrun in Hst. cbn [snd] in Hst.
  exists (es ++ [Print no_charts_notice]). split; [|split].
  - unfold find_charts.
    rewrite (bind_inr _ _ _ _ _ Hensure).
    unfold read_registry at 1. unfold bind at 1. fold st0.
    rewrite (bind_inr _ _ _ _ _ Hrun). reflexivity.
  - rewrite Hst. cbn [add_events trace]. now rewrite Htrace, app_assoc.
  - unfold printed. rewrite flat_map_app.
    fold (printed es). now rewrite (reads_only_printed _ _ Hes).
Qed.

End Unread.

Lemma find_charts_empty_frame :
  exists es,
    @find_charts one_chart_per_candidate [] None initial_state
    = (inr [], add_events (mk_state None (DataframeRegistry []) [])
                 [Print no_charts_notice])
    /\ trace (add_events (mk_state None (DataframeRegistry []) [])
                [Print no_charts_notice])
       = trace initial_state ++ es
    /\ printed es = [no_charts_notice].
Proof.
  exact (@find_charts_no_charts one_chart_per_candidate [] None initial_state
           (mk_state None (DataframeRegistry []) []) eq_refl).
Defined.

Lemma unread_groups_dated_labels :
  exists es,
    snd (@determine_charts one_chart_per_candidate dated_labels_frame NoRegistry
           None initial_state)
    = add_events initial_state es
    /\ Forall (reads_only (classify dated_labels_frame)) es
    /\ forall f c n,
        In (HelperCall f c) es -> In n (labels_of c) ->
        In n (large_categorical (classify dated_labels_frame)
              ++ singleton (classify dated_labels_frame)
              ++ filtered (classify dated_labels_frame)) ->
        f = time_series_line
        /\ (In n (timelike (classify dated_labels_frame))
            \/ n = "count()"%string).
Proof.
  apply (@unread_groups_only_as_time_columns one_chart_per_candidate
           dated_labels_frame NoRegistry None initial_state).
  repeat constructor. simpl. tauto.
Defined.

(** A large categorical column labelled "date" is consumed by the
    time-series family. *)
Lemma large_categorical_date_is_charted :
  well_formed dated_labels_frame
  /\ In "date"%string (large_categorical (classify dated_labels_frame))
  /\ In (HelperCall time_series_line (Triples [("date", "count()", None)]%string))
        (trace (snd (@determine_charts one_chart_per_candidate dated_labels_frame
                       NoRegistry None initial_state)))
  /\ In "date"%string (labels_of (Triples [("date", "count()", None)]%string)).
Proof.
  split; [repeat constructor; simpl; tauto|].
  repeat split; vm_compute; tauto.
Qed.

(** ** Caps outside of the range *)

(** [itertools.islice] refuses a negative stop and a stop above
    [sys.maxsize]: the three selectors raise for such a cap. *)
Lemma islice_out_of_range {A : Type} (l : list A) (k : Z) :
  k < 0 \/ sys_maxsize < k -> exists e, islice l (Some k) = inl e.
Proof.
  intros Hk. unfold islice.
  assert (E : ((k <? 0) || (sys_maxsize <? k))%bool = true).
  { apply orb_true_iff. destruct Hk as [H|H]; [left|right]; now apply Z.ltb_lt. }
  rewrite E. eexists. reflexivity.
Qed.

(** A list slice with a negative stop drops elements from the end instead:
    with the cap -1 the histogram builder of the example frame is handed no
    column, and the time-series selector raises. *)
Example determine_charts_negative_cap :
  @determine_charts one_chart_per_candidate sales_frame NoRegistry (Some (-1))
    initial_state
  = (inl (ValueError
            "Stop argument for islice() must be None or an integer: 0 <= x <= sys.maxsize."),
     add_events initial_state
       [HelperCall histogram (Columns []);
        HelperCall categorical_histogram (Columns [])]).
Proof. reflexivity. Qed.

(** * Further properties of the code *)

(** ** The classifier, column by column *)

Lemma name_injective (df : DataFrame) (s s' : Series) :
  well_formed df -> In s df -> In s' df -> name s = name s' -> s = s'.
Proof.
  intros Hwf Hs Hs' Heq.
  rewrite <- (getitem_In df s Hwf Hs), <- (getitem_In df s' Hwf Hs').
  now rewrite Heq.
Qed.

Lemma In_names_filter (df : DataFrame) (p : Series -> bool) (s : Series) :
  well_formed df -> In s df ->
  (In (name s) (map name (filter p df)) <-> p s = true).
Proof.
  intros Hwf Hs. rewrite in_map_iff. split.
  - intros [s' [Heq Hin]]. apply filter_In in Hin as [Hin Hp].
    now rewrite <- (name_injective df s' s Hwf Hin Hs Heq).
  - intros Hp. exists s. split; [reflexivity|]. apply filter_In. now split.
Qed.

(** Filtering labels through a lookup is filtering the columns. *)
Lemma filter_names_getitem (df l : DataFrame) (p : Series -> bool) :
  (forall s, In s l -> getitem df (name s) = s) ->
  filter (fun c => p (getitem df c)) (map name l) = map name (filter p l).
Proof.
  induction l as [|s l IH]; intros Hget; simpl; [reflexivity|].
  rewrite (Hget s (or_introl eq_refl)).
  rewrite IH by (intros s' Hs'; apply Hget; now right).
  destruct (p s); reflexivity.
Qed.

Lemma classify_fold_members (df l : DataFrame) (acc : primary_lists) :
  (forall s, In s l -> getitem df (name s) = s) ->
  fold_left
    (classify_step df _CATEGORICAL_DTYPES _DATETIME_DTYPES _DATETIME_DTYPE_KINDS)
    (combine (map name l) (map dtype l)) acc
  = mk_primary_lists
      (filtered_cols acc ++ members in_filtered l)
      (numeric_cols acc ++ members in_numeric l)
      (cat_cols acc ++ map name (filter is_categorical l))
      (datetime_cols acc ++ members in_datetime l)
      (singleton_cols acc ++ members in_singleton l).
Proof.
  revert acc. induction l as [|s l IH]; intros acc Hget.
  - destruct acc. unfold members. simpl. now rewrite !app_nil_r.
  - cbn [map combine fold_left].
    rewrite IH by (intros s' Hs'; apply Hget; now right).
    unfold classify_step. rewrite (Hget s (or_introl eq_refl)).
    unfold members, is_categorical, group_of, nunique. cbn [filter].
    destruct acc as [fc nc cc dc sc].
    destruct (negb (forallb is_hashable (values s)));
      [|destruct (Nat.leb (List.length (unique (values s))) 1);
        [|destruct (existsb (Dtype_eqb (dtype s)) _CATEGORICAL_DTYPES);
          [destruct (Nat.leb (List.length (unique (values s)))
                       _CATEGORICAL_LARGE_SIZE_THRESHOLD)
          |destruct (existsb (Dtype_eqb (dtype s)) _DATETIME_DTYPES
                     || existsb (Ascii.eqb (kind (dtype s))) _DATETIME_DTYPE_KINDS)%bool;
            [|destruct (is_numeric_dtype (dtype s))]]]];
      cbn [group_eqb orb map filtered_cols numeric_cols cat_cols datetime_cols
             singleton_cols];
      rewrite <- ?app_assoc; reflexivity.
Qed.

Lemma getitem_all (df : DataFrame) :
  well_formed df -> forall s, In s df -> getitem df (name s) = s.
Proof. intros Hwf s Hs. now apply getitem_In. Qed.

Lemma classify_loop_members (df : DataFrame) :
  well_formed df ->
  classify_loop df _CATEGORICAL_DTYPES _DATETIME_DTYPES _DATETIME_DTYPE_KINDS
  = mk_primary_lists (members in_filtered df) (members in_numeric df)
      (map name (filter is_categorical df)) (members in_datetime df)
      (members in_singleton df).
Proof.
  intros Hwf. unfold classify_loop, columns, dtypes.
  now rewrite (classify_fold_members df df no_primary_lists (getitem_all df Hwf)).
Qed.

Lemma filter_filter {A : Type} (p q : A -> bool) (l : list A) :
  filter p (filter q l) = filter (fun x => (q x && p x)%bool) l.
Proof.
  induction l as [|a l IH]; simpl; [reflexivity|].
  destruct (q a); simpl; [destruct (p a)|]; now rewrite IH.
Qed.

(** The exact content of every list of the classification. *)
Lemma classify_members (df : DataFrame) (G : group) :
  well_formed df -> group_list G (classify df) = members G df.
Proof.
  intros Hwf. unfold classify, classify_with.
  rewrite classify_loop_members by exact Hwf.
  rewrite split_categoricals_eq. cbn [cat_cols].
  assert (Hsub : forall s, In s (filter is_categorical df) ->
                           getitem df (name s) = s).
  { intros s Hs. apply filter_In in Hs as [Hs _]. now apply getitem_In. }
  rewrite (filter_names_getitem df _
             (fun s => Nat.leb (List.length (unique (values s)))
                         _CATEGORICAL_LARGE_SIZE_THRESHOLD) Hsub).
  rewrite (filter_names_getitem df _
             (fun s => negb (Nat.leb (List.length (unique (values s)))
                               _CATEGORICAL_LARGE_SIZE_THRESHOLD)) Hsub).
  rewrite !filter_filter.
  destruct G; cbn [group_list numeric categorical large_categorical datetime
                     singleton filtered numeric_cols datetime_cols singleton_cols
                     filtered_cols]; try reflexivity;
    unfold members; f_equal; apply filter_ext; intros s;
    unfold is_categorical, group_of, nunique;
    repeat match goal with
           | |- context [if ?b then _ else _] => destruct b
           end; reflexivity.
Qed.

Lemma timelike_members (df : DataFrame) :
  well_formed df ->
  timelike (classify df) = map name (filter is_timelike df).
Proof.
  intros Hwf. rewrite timelike_classify, timelike_loop_eq. unfold columns.
  rewrite <- (filter_names_getitem df df is_timelike (getitem_all df Hwf)).
  apply filter_ext_in. intros c Hc. apply in_map_iff in Hc as [s [<- Hs]].
  unfold is_timelike. now rewrite (getitem_In df s Hwf Hs).
Qed.

(** X1: in a frame with distinct labels the classifier decides the group
    of every column from that column alone, and lists the columns of each
    group in frame order: each of the six lists, and the timelike list, is
    the list of the frame's labels filtered by a test on the column. *)
Theorem classify_column_by_column (df : DataFrame) :
  well_formed df ->
  (forall G, group_list G (classify df) = members G df)
  /\ timelike (classify df) = map name (filter is_timelike df).
Proof.
  intros Hwf. split.
  - intros G. now apply classify_members.
  - now apply timelike_members.
Qed.

Lemma classify_column_by_column_sales :
  (forall G, group_list G (classify sales_frame) = members G sales_frame)
  /\ timelike (classify sales_frame) = map name (filter is_timelike sales_frame).
Proof.
  exact (classify_column_by_column sales_frame sales_frame_well_formed).
Defined.

(** The group of a column of a well-formed frame. *)
Lemma In_group_list (df : DataFrame) (s : Series) (G : group) :
  well_formed df -> In s df ->
  (In (name s) (group_list G (classify df)) <-> group_of s = G).
Proof.
  intros Hwf Hs. rewrite classify_members by exact Hwf. unfold members.
  rewrite (In_names_filter df _ s Hwf Hs).
  destruct (group_of s), G; simpl; split; congruence.
Qed.

(** ** The conditions of the groups *)

Lemma false_iff_not (b : bool) (P : Prop) :
  (b = true <-> P) -> (b = false <-> ~ P).
Proof. destruct b; intros [H1 H2]; split; intros; try congruence; intuition congruence. Qed.

Lemma all_hashable_spec (s : Series) :
  forallb is_hashable (values s) = true <-> all_hashable s.
Proof. unfold all_hashable. now rewrite forallb_forall, Forall_forall. Qed.

Lemma categorical_dtype_spec (d : Dtype) :
  existsb (Dtype_eqb d) _CATEGORICAL_DTYPES = true <-> categorical_dtype d.
Proof.
  unfold categorical_dtype, _CATEGORICAL_DTYPES, Dtype_eqb. cbn [existsb].
  destruct (Dtype_eq_dec d (NumpyDtype np_object)) as [->|H1];
    [simpl; tauto|].
  destruct (Dtype_eq_dec d (NumpyDtype np_bool)) as [->|H2];
    [simpl; tauto|].
  simpl. split; [discriminate|tauto].
Qed.

(** With the default arguments the membership in [datetime_dtypes] adds
    nothing to the test of the kind. *)
Lemma datetime_dtype_spec (d : Dtype) :
  (existsb (Dtype_eqb d) _DATETIME_DTYPES
   || existsb (Ascii.eqb (kind d)) _DATETIME_DTYPE_KINDS)%bool = true
  <-> datetime_dtype d.
Proof.
  unfold datetime_dtype, _DATETIME_DTYPES, _DEFAULT_DATETIME_DTYPE,
    _DATETIME_DTYPE_KINDS, Dtype_eqb. cbn [existsb].
  rewrite !orb_false_r, orb_true_iff, Ascii.eqb_eq.
  destruct (Dtype_eq_dec d (NumpyDtype (np_datetime64 "ns"))) as [->|H].
  - simpl. tauto.
  - split; [intros [H'|H']; [discriminate|exact H']|now right].
Qed.

(** The group of a column, test by test. *)
Lemma group_of_cases (s : Series) :
  match group_of s with
  | in_filtered =>
      ~ all_hashable s
      \/ ((2 <= nunique s)%nat /\ ~ categorical_dtype (dtype s)
          /\ ~ datetime_dtype (dtype s) /\ is_numeric_dtype (dtype s) = false)
  | in_singleton => all_hashable s /\ (nunique s <= 1)%nat
  | in_categorical =>
      all_hashable s /\ categorical_dtype (dtype s)
      /\ (2 <= nunique s <= 8)%nat
  | in_large_categorical =>
      all_hashable s /\ categorical_dtype (dtype s) /\ (9 <= nunique s)%nat
  | in_datetime =>
      all_hashable s /\ (2 <= nunique s)%nat /\ ~ categorical_dtype (dtype s)
      /\ datetime_dtype (dtype s)
  | in_numeric =>
      all_hashable s /\ (2 <= nunique s)%nat /\ ~ categorical_dtype (dtype s)
      /\ ~ datetime_dtype (dtype s) /\ is_numeric_dtype (dtype s) = true
  end.
Proof.
  unfold group_of, _CATEGORICAL_LARGE_SIZE_THRESHOLD.
  destruct (forallb is_hashable (values s)) eqn:Eh; cbn [negb].
  2: { left. now apply (false_iff_not _ _ (all_hashable_spec s)). }
  apply all_hashable_spec in Eh.
  destruct (Nat.leb (nunique s) 1) eqn:E1.
  { apply Nat.leb_le in E1. now split. }
  apply Nat.leb_gt in E1.
  destruct (existsb (Dtype_eqb (dtype s)) _CATEGORICAL_DTYPES) eqn:Ec.
  { apply categorical_dtype_spec in Ec.
    destruct (Nat.leb (nunique s) 8) eqn:E8.
    - apply Nat.leb_le in E8. repeat split; try assumption; lia.
    - apply Nat.leb_gt in E8. repeat split; try assumption; lia. }
  apply (false_iff_not _ _ (categorical_dtype_spec (dtype s))) in Ec.
  destruct (existsb (Dtype_eqb (dtype s)) _DATETIME_DTYPES
            || existsb (Ascii.eqb (kind (dtype s))) _DATETIME_DTYPE_KINDS)%bool
    eqn:Ed.
  { apply datetime_dtype_spec in Ed. repeat split; try assumption; lia. }
  apply (false_iff_not _ _ (datetime_dtype_spec (dtype s))) in Ed.
  destruct (is_numeric_dtype (dtype s)) eqn:En.
  - repeat split; try assumption; lia.
  - right. repeat split; try assumption; lia.
Qed.

(** X2: in a frame with distinct labels a column is classified singleton
    exactly when all of its values are hashable and it has at most one
    distinct value, whatever its dtype; a column with an unhashable value
    is never singleton. *)
Theorem singleton_iff (df : DataFrame) (s : Series) :
  well_formed df -> In s df ->
  (In (name s) (singleton (classify df))
   <-> all_hashable s /\ (nunique s <= 1)%nat).
Proof.
  intros Hwf Hs. rewrite (In_group_list df s in_singleton Hwf Hs).
  pose proof (group_of_cases s) as H.
  destruct (group_of s); split; intros H'; try discriminate; try reflexivity;
    try assumption; exfalso; intuition lia.
Qed.

(** X3: in a frame with distinct labels a column is filtered exactly when
    one of its values is unhashable, or when it has at least two distinct
    values and a dtype that is neither [object] nor [bool], nor of the
    datetime kind, nor numeric for pandas. *)
Theorem filtered_iff (df : DataFrame) (s : Series) :
  well_formed df -> In s df ->
  (In (name s) (filtered (classify df))
   <-> ~ all_hashable s
       \/ ((2 <= nunique s)%nat /\ ~ categorical_dtype (dtype s)
           /\ ~ datetime_dtype (dtype s) /\ is_numeric_dtype (dtype s) = false)).
Proof.
  intros Hwf Hs. rewrite (In_group_list df s in_filtered Hwf Hs).
  pose proof (group_of_cases s) as H.
  destruct (group_of s); split; intros H'; try discriminate; try reflexivity;
    try assumption; exfalso; intuition (try lia; try congruence).
Qed.

(** X4: in a frame with distinct labels a column is small categorical
    exactly when its values are hashable, its dtype is [object] or [bool]
    and it has between 2 and 8 distinct values, and large categorical
    exactly when it has 9 or more; such a column is never numeric nor
    datetime. *)
Theorem categorical_iff (df : DataFrame) (s : Series) :
  well_formed df -> In s df ->
  (In (name s) (categorical (classify df))
   <-> all_hashable s /\ categorical_dtype (dtype s) /\ (2 <= nunique s <= 8)%nat)
  /\ (In (name s) (large_categorical (classify df))
      <-> all_hashable s /\ categorical_dtype (dtype s) /\ (9 <= nunique s)%nat)
  /\ (categorical_dtype (dtype s) ->
      ~ In (name s) (numeric (classify df))
      /\ ~ In (name s) (datetime (classify df))).
Proof.
  intros Hwf Hs.
  rewrite (In_group_list df s in_categorical Hwf Hs).
  rewrite (In_group_list df s in_large_categorical Hwf Hs).
  rewrite (In_group_list df s in_numeric Hwf Hs).
  rewrite (In_group_list df s in_datetime Hwf Hs).
  pose proof (group_of_cases s) as H.
  destruct (group_of s);
    intuition (try discriminate; try lia; try congruence).
Qed.

(** X5: in a frame with distinct labels a column is datetime exactly when
    its values are hashable, it has at least two distinct values and its
    dtype has the kind 'M' (any unit, time zone aware or not); it is
    numeric exactly when, with the same first two conditions, its dtype is
    neither [object] nor [bool] nor of the kind 'M' and is numeric for
    pandas. *)
Theorem datetime_numeric_iff (df : DataFrame) (s : Series) :
  well_formed df -> In s df ->
  (In (name s) (datetime (classify df))
   <-> all_hashable s /\ (2 <= nunique s)%nat /\ datetime_dtype (dtype s))
  /\ (In (name s) (numeric (classify df))
      <-> all_hashable s /\ (2 <= nunique s)%nat
          /\ ~ categorical_dtype (dtype s) /\ ~ datetime_dtype (dtype s)
          /\ is_numeric_dtype (dtype s) = true).
Proof.
  intros Hwf Hs.
  rewrite (In_group_list df s in_datetime Hwf Hs).
  rewrite (In_group_list df s in_numeric Hwf Hs).
  assert (Hexcl : datetime_dtype (dtype s) -> ~ categorical_dtype (dtype s)).
  { unfold datetime_dtype, categorical_dtype. intros Hk [E|E];
      rewrite E in Hk; discriminate. }
  pose proof (group_of_cases s) as H.
  destruct (group_of s);
    intuition (try discriminate; try lia; try congruence).
Qed.

Lemma mixed_frame_well_formed : well_formed mixed_frame.
Proof. repeat constructor; simpl; intuition discriminate. Defined.

Lemma gappy_frame_well_formed : well_formed gappy_frame.
Proof. repeat constructor; simpl; tauto. Defined.

(** Equal numbers of different types are one distinct value: the three
    object columns [1, 1.0], [True, 1.0] and [(1,), (1.0,)] are
    singletons. *)
Example equal_numbers_singleton :
  singleton (classify equal_numbers_frame) = ["v"; "w"; "p"]%string
  /\ categorical (classify equal_numbers_frame) = [].
Proof. split; reflexivity. Qed.

Lemma singleton_iff_constant :
  In "n"%string (singleton (classify mixed_frame))
  <-> all_hashable (mkSeries "n" (NumpyDtype (np_int 64)) [VInt 5; VInt 5; VInt 5])
      /\ (nunique (mkSeries "n" (NumpyDtype (np_int 64)) [VInt 5; VInt 5; VInt 5])
          <= 1)%nat.
Proof.
  exact (singleton_iff mixed_frame
           (mkSeries "n" (NumpyDtype (np_int 64)) [VInt 5; VInt 5; VInt 5])
           mixed_frame_well_formed (or_introl eq_refl)).
Defined.

Lemma filtered_iff_lists :
  In "tags"%string (filtered (classify mixed_frame))
  <-> ~ all_hashable (mkSeries "tags" (NumpyDtype np_object)
                        [VList [VStr "a"]; VList []; VList [VStr "b"]])
      \/ ((2 <= nunique (mkSeries "tags" (NumpyDtype np_object)
                           [VList [VStr "a"]; VList []; VList [VStr "b"]]))%nat
          /\ ~ categorical_dtype (NumpyDtype np_object)
          /\ ~ datetime_dtype (NumpyDtype np_object)
          /\ is_numeric_dtype (NumpyDtype np_object) = false).
Proof.
  exact (filtered_iff mixed_frame
           (mkSeries "tags" (NumpyDtype np_object)
              [VList [VStr "a"]; VList []; VList [VStr "b"]])
           mixed_frame_well_formed (or_intror (or_introl eq_refl))).
Defined.

Lemma categorical_iff_flag :
  In "flag"%string (categorical (classify mixed_frame)).
Proof.
  refine (proj2 (proj1 (categorical_iff mixed_frame
                          (mkSeries "flag" (NumpyDtype np_bool)
                             [VBool true; VBool false; VBool true])
                          mixed_frame_well_formed _)) _).
  - simpl. tauto.
  - split; [repeat constructor|]. split; [now right|]. vm_compute.
    split; lia.
Defined.

Lemma datetime_numeric_iff_when :
  In "when"%string (datetime (classify mixed_frame)).
Proof.
  refine (proj2 (proj1 (datetime_numeric_iff mixed_frame
                          (mkSeries "when" (NumpyDtype (np_datetime64 "s"))
                             [VTimestamp 3; VTimestamp 1; VTimestamp 2])
                          mixed_frame_well_formed _)) _).
  - simpl. tauto.
  - split; [repeat constructor|]. split; [|reflexivity].
    vm_compute. lia.
Defined.

(** ** More on the timelike tag *)

Lemma unique_repeat (v : value) (n : nat) :
  value_eqb v v = true -> (List.length (unique (repeat v n)) <= 1)%nat.
Proof.
  intros Hv. unfold unique. destruct n as [|n]; simpl; [lia|].
  assert (H : forall m, fold_left
                          (fun seen x =>
                             if existsb (value_eqb x) seen then seen
                             else seen ++ [x])
                          (repeat v m) [v] = [v]).
  { induction m as [|m IH]; simpl; [reflexivity|]. now rewrite Hv. }
  rewrite H. simpl. lia.
Qed.

(** X7: in a frame with distinct labels a constant integer column is
    classified singleton, so it is not a numeric column, and it is tagged
    timelike all the same: its values are non-decreasing. *)
Theorem constant_column_singleton_and_timelike (df : DataFrame) (s : Series)
    (bits : N) (z : Z) (n : nat) :
  well_formed df -> In s df ->
  dtype s = NumpyDtype (np_int bits) -> values s = repeat (VInt z) n ->
  In (name s) (singleton (classify df))
  /\ ~ In (name s) (numeric (classify df))
  /\ In (name s) (timelike (classify df)).
Proof.
  intros Hwf Hs Hd Hv.
  assert (Hh : all_hashable s).
  { unfold all_hashable. rewrite Hv. apply Forall_forall. intros v Hin.
    apply repeat_spec in Hin. now subst. }
  assert (Hu : (nunique s <= 1)%nat).
  { unfold nunique. rewrite Hv. apply unique_repeat. simpl. apply Z.eqb_refl. }
  assert (Hg : group_of s = in_singleton).
  { pose proof (group_of_cases s) as H.
    destruct (group_of s); try reflexivity; exfalso; intuition lia. }
  split; [|split].
  - now apply (In_group_list df s in_singleton Hwf Hs).
  - intros H. apply (In_group_list df s in_numeric Hwf Hs) in H. congruence.
  - apply (timelike_tag_iff df s Hwf Hs). split.
    + right. split.
      * exists (np_int bits). now split.
      * rewrite Hv. intros i x y Hx Hy.
        apply nth_error_In, repeat_spec in Hx.
        apply nth_error_In, repeat_spec in Hy. subst. simpl. apply Z.leb_refl.
    + rewrite Hv. apply Forall_forall. intros v Hin.
      apply repeat_spec in Hin. subst. intros H. discriminate H.
Qed.

Lemma constant_column_mixed :
  In "n"%string (singleton (classify mixed_frame))
  /\ ~ In "n"%string (numeric (classify mixed_frame))
  /\ In "n"%string (timelike (classify mixed_frame)).
Proof.
  exact (constant_column_singleton_and_timelike mixed_frame
           (mkSeries "n" (NumpyDtype (np_int 64)) [VInt 5; VInt 5; VInt 5])
           64%N 5 3%nat mixed_frame_well_formed (or_introl eq_refl)
           eq_refl eq_refl).
Defined.

Lemma SFcompare_refl (s : SpecFloat.spec_float) :
  s <> SpecFloat.S754_nan -> SpecFloat.SFcompare s s = Some Eq.
Proof.
  destruct s as [sg|sg| |sg m e]; simpl; intros H; try congruence.
  - destruct sg; reflexivity.
  - change (PosDef.Pos.compare_cont Eq m m) with (Pos.compare m m).
    rewrite Z.compare_refl, Pos.compare_refl. destruct sg; reflexivity.
Qed.

Lemma is_nan_spec_float (x : float) :
  is_nan x = true -> FloatOps.Prim2SF x = SpecFloat.S754_nan.
Proof.
  unfold is_nan. rewrite FloatAxioms.eqb_spec. unfold SpecFloat.SFeqb.
  intros H.
  destruct (FloatOps.Prim2SF x) as [sg|sg| |sg m e] eqn:Es; try reflexivity;
    exfalso; rewrite SFcompare_refl in H by discriminate; discriminate.
Qed.

(** A comparison with a NaN is false. *)
Lemma leb_nan (x y : float) :
  (is_nan x || is_nan y)%bool = true -> PrimFloat.leb x y = false.
Proof.
  intros H. rewrite FloatAxioms.leb_spec. unfold SpecFloat.SFleb.
  apply orb_true_iff in H as [H|H]; apply is_nan_spec_float in H; rewrite H.
  - reflexivity.
  - destruct (FloatOps.Prim2SF x) as [[]|[]| |[] ? ?]; reflexivity.
Qed.

(** X8: a NaN next to another value breaks the monotonicity test: a float
    column in which a NaN has a neighbour is never found monotonically
    increasing, and in a frame with distinct labels it is tagged timelike
    only if its label follows the naming convention. *)
Theorem nan_breaks_monotonic (df : DataFrame) (s : Series) (i : nat)
    (x y : float) :
  well_formed df -> In s df ->
  nth_error (values s) i = Some (VFloat x) ->
  nth_error (values s) (S i) = Some (VFloat y) ->
  (is_nan x || is_nan y)%bool = true ->
  _is_monotonically_increasing_numeric s = false
  /\ (In (name s) (timelike (classify df)) -> name_is_timelike (name s)).
Proof.
  intros Hwf Hs Hx Hy Hnan.
  assert (Hmono : ~ non_decreasing (values s)).
  { intros H. specialize (H i _ _ Hx Hy). simpl in H.
    rewrite (leb_nan x y Hnan) in H. discriminate. }
  split.
  - destruct (_is_monotonically_increasing_numeric s) eqn:E; [|reflexivity].
    apply _is_monotonically_increasing_numeric_spec in E. tauto.
  - intros H. apply (timelike_tag_iff df s Hwf Hs) in H.
    destruct H as [[H|[_ H]] _]; [exact H|contradiction].
Qed.

Lemma nan_breaks_monotonic_gappy :
  _is_monotonically_increasing_numeric
    (mkSeries "reading" (NumpyDtype (np_float 64))
       [VFloat 1%float; VFloat nan; VFloat 2%float]) = false
  /\ (In "reading"%string (timelike (classify gappy_frame)) ->
      name_is_timelike "reading"%string).
Proof.
  exact (nan_breaks_monotonic gappy_frame
           (mkSeries "reading" (NumpyDtype (np_float 64))
              [VFloat 1%float; VFloat nan; VFloat 2%float])
           0%nat 1%float nan gappy_frame_well_formed (or_introl eq_refl)
           eq_refl eq_refl eq_refl).
Defined.

(** ** More on the selectors *)

Lemma first_k_capped {A : Type} (k : option Z) (l : list A) :
  List.length (first_k k l) = capped k (List.length l).
Proof. destruct k; simpl; [apply length_firstn|reflexivity]. Qed.

Lemma product_length {A B : Type} (xs : list A) (ys : list B) :
  List.length (product xs ys) = (List.length xs * List.length ys)%nat.
Proof.
  unfold product. induction xs as [|x xs IH]; simpl; [reflexivity|].
  now rewrite length_app, length_map, IH.
Qed.

Lemma product3_length {A B C : Type} (xs : list A) (ys : list B) (zs : list C) :
  List.length (product3 xs ys zs)
  = (List.length xs * (List.length ys * List.length zs))%nat.
Proof. now rewrite product3_product, length_map, !product_length. Qed.

Lemma pairwise_length {A : Type} (l : list A) :
  List.length (pairwise l) = (List.length l - 1)%nat.
Proof.
  induction l as [|a l IH]; [reflexivity|]. destruct l as [|b l]; [reflexivity|].
  change (pairwise (a :: b :: l)) with ((a, b) :: pairwise (b :: l)).
  cbn [List.length] in *. rewrite IH. lia.
Qed.

(** X9: the number of candidates.  For a valid cap [k] and [n] column
    labels the pair selector returns min(k, n - 1) pairs (none for fewer
    than two labels); the faceted selector returns min(k, |numeric| *
    |categorical|) pairs; the time-series selector returns min(k, |time| *
    (|numeric columns that are not time columns| + 1) * max(1,
    |categorical|)) tuples. *)
Theorem selector_counts (time_cols numeric_cols categorical_cols : list string)
    (k : option Z) :
  cap_ok k ->
  (exists pairs,
      _select_first_k_pairs numeric_cols k = inr pairs
      /\ List.length pairs = capped k (List.length numeric_cols - 1))
  /\ (exists pairs,
         _select_faceted_numeric_cols numeric_cols categorical_cols k = inr pairs
         /\ List.length pairs
            = capped k (List.length numeric_cols * List.length categorical_cols))
  /\ (exists triples,
         _select_time_series_cols time_cols numeric_cols categorical_cols k
         = inr triples
         /\ List.length triples
            = capped k
                (List.length time_cols
                 * ((List.length
                       (filter (fun c => negb (contains time_cols c)) numeric_cols)
                     + 1)
                    * Nat.max 1 (List.length categorical_cols)))).
Proof.
  intros Hk. split; [|split].
  - eexists. split; [apply islice_ok; exact Hk|].
    now rewrite first_k_capped, pairwise_length.
  - eexists. split; [apply islice_ok; exact Hk|].
    now rewrite first_k_capped, product_length.
  - eexists. split; [apply islice_ok; exact Hk|].
    rewrite first_k_capped, product3_length, length_app. cbn [List.length].
    do 3 f_equal. destruct categorical_cols as [|c cs]; [reflexivity|].
    cbn [truthy negb]. rewrite length_map. cbn [List.length]. lia.
Qed.

Lemma selector_counts_example :
  (exists pairs,
      _select_first_k_pairs ["a"; "b"; "c"; "d"]%string (Some 2) = inr pairs
      /\ List.length pairs = 2%nat)
  /\ (exists pairs,
         _select_faceted_numeric_cols ["a"; "b"; "c"; "d"]%string
           ["u"; "v"]%string (Some 2) = inr pairs
         /\ List.length pairs = 2%nat)
  /\ (exists triples,
         _select_time_series_cols ["a"; "t"]%string ["a"; "b"; "c"; "d"]%string
           ["u"; "v"]%string (Some 2) = inr triples
         /\ List.length triples = 2%nat).
Proof.
  exact (selector_counts ["a"; "t"]%string ["a"; "b"; "c"; "d"]%string
           ["u"; "v"]%string (Some 2) cap_two).
Defined.

(** X10: the tuples of the time-series selector.  Whatever the cap, a
    returned tuple holds a time column, a value that is the token
    "count()" or a numeric column that is not a time column (no time
    column is plotted against itself), and a series slot that is a
    categorical column, or null when there is none.  Without a cap every
    such tuple is returned: each time column is paired with "count()" even
    when there is no numeric column. *)
Theorem time_series_tuples (time_cols numeric_cols categorical_cols : list string)
    (k : option Z) (triples : list (string * string * option string)) :
  _select_time_series_cols time_cols numeric_cols categorical_cols k
  = inr triples ->
  forall t v s,
    (In (t, v, s) triples ->
     In t time_cols
     /\ (v = "count()"%string \/ (In v numeric_cols /\ ~ In v time_cols))
     /\ match s with
        | Some c => In c categorical_cols
        | None => categorical_cols = []
        end)
    /\ (k = None ->
        In t time_cols ->
        (v = "count()"%string \/ (In v numeric_cols /\ ~ In v time_cols)) ->
        match s with
        | Some c => In c categorical_cols
        | None => categorical_cols = []
        end ->
        In (t, v, s) triples).
Proof.
  intros Hsel t v s.
  assert (Hslot : In s (if negb (truthy categorical_cols) then [@None string]
                        else map Some categorical_cols)
                  <-> match s with
                      | Some c => In c categorical_cols
                      | None => categorical_cols = []
                      end).
  { destruct categorical_cols as [|c0 cs]; cbn [truthy negb].
    - destruct s; simpl; split; intros H; try tauto;
        destruct H as [H|[]]; discriminate.
    - rewrite in_map_iff. destruct s as [c|]; split.
      + intros [c' [Heq Hc]]. now inversion Heq; subst.
      + intros Hc. now exists c.
      + intros [c' [Heq _]]. discriminate.
      + discriminate. }
  assert (Hvalue : In v (filter (fun c => negb (contains time_cols c)) numeric_cols
                         ++ ["count()"%string])
                   <-> (v = "count()"%string
                        \/ (In v numeric_cols /\ ~ In v time_cols))).
  { rewrite in_app_iff, filter_In, negb_true_iff, contains_not_In. simpl.
    intuition congruence. }
  unfold _select_time_series_cols in Hsel. split.
  - intros Hin. apply (islice_incl _ _ _ _ Hsel) in Hin.
    apply in_product3 in Hin as [Ht [Hv Hs]]. split; [exact Ht|].
    split; [now apply Hvalue|now apply Hslot].
  - intros -> Ht Hv Hs. simpl in Hsel. inversion Hsel; subst.
    apply in_product3. split; [exact Ht|]. split; [now apply Hvalue|now apply Hslot].
Qed.

Lemma time_series_tuples_count_only :
  In ("date"%string, "count()"%string, @None string)
     [("date"%string, "count()"%string, None)].
Proof.
  refine (proj2 (time_series_tuples ["date"]%string ["date"]%string [] None
                   [("date", "count()", None)]%string eq_refl
                   "date"%string "count()"%string None)
            eq_refl _ _ eq_refl).
  - simpl. tauto.
  - now left.
Defined.

Lemma not_cap_ok (z : Z) :
  ~ cap_ok (Some z) <-> ((z <? 0) || (sys_maxsize <? z))%bool = true.
Proof.
  unfold cap_ok. rewrite orb_true_iff, !Z.ltb_lt. lia.
Qed.

Lemma islice_raises_iff {A : Type} (l : list A) (k : option Z) :
  (exists e, islice l k = inl e) <-> ~ cap_ok k.
Proof.
  destruct k as [z|]; simpl.
  - rewrite (not_cap_ok z).
    destruct ((z <? 0) || (sys_maxsize <? z))%bool; split; intros H;
      try reflexivity; try discriminate.
    + eexists. reflexivity.
    + destruct H as [e H]. discriminate.
  - split; [intros [e H]; discriminate|tauto].
Qed.

(** ** The orchestrator for every cap *)

Section RunningBlocks.

Context {helpers : QuickchartHelpers}.

Lemma chain_run_blocks (df : DataFrame) (reg : registry)
    (builders : list (bool * M ChartSection)) (blocks : list block) :
  Forall2 (performs df reg) builders blocks ->
  forall chart_sections st,
    chain builders chart_sections st = run_blocks df reg blocks chart_sections st.
Proof.
  induction 1 as [|[cond build] [[cond' f] r] builders blocks [Hc Hb] _ IH];
    intros chart_sections st; [reflexivity|].
  cbn [fst snd block_guard block_family] in Hc, Hb. subst cond'.
  cbn [chain run_blocks]. unfold bind, section_if. destruct cond.
  - unfold bind. rewrite Hb. destruct r as [e|c]; [reflexivity|].
    rewrite call_helper_run. cbn [charts]. unfold ret. apply IH.
  - unfold ret. apply IH.
Qed.

(** For every cap the orchestrator classifies, logs the warning if any and
    runs its seven blocks. *)
Lemma determine_charts_blocks (df : DataFrame) (reg : registry) (k : option Z)
    (st : state) :
  determine_charts df reg k st
  = run_blocks df reg (blocks_of (classify df) k) []
      (add_events st (warnings_of df)).
Proof.
  unfold determine_charts.
  rewrite (bind_inr _ _ _ _ _ (_classify_dtypes_run df st)).
  set (g := classify df). set (st' := add_events st (warnings_of df)).
  set (numeric_cols := numeric g). set (categorical_cols := categorical g).
  set (time_cols := datetime g ++ timelike g).
  change (chain
            [(truthy numeric_cols,
              histograms_section df (slice_to numeric_cols k) reg);
             (truthy categorical_cols,
              categorical_histograms_section df (slice_to categorical_cols k) reg);
             (Nat.leb 2 (List.length numeric_cols),
              pairs <- lift (_select_first_k_pairs numeric_cols k) ;;
              scatter_section df pairs reg);
             (truthy time_cols,
              triples <- lift (_select_time_series_cols time_cols numeric_cols
                                 categorical_cols k) ;;
              time_series_line_plots_section df triples reg);
             (truthy numeric_cols,
              value_plots_section df (slice_to numeric_cols k) reg);
             (Nat.leb 2 (List.length categorical_cols),
              pairs <- lift (_select_first_k_pairs categorical_cols k) ;;
              heatmaps_section df pairs reg);
             ((truthy categorical_cols && truthy numeric_cols)%bool,
              pairs <- lift (_select_faceted_numeric_cols numeric_cols
                               categorical_cols k) ;;
              faceted_distributions_section df pairs reg)]
            [] st'
          = run_blocks df reg (blocks_of g k) [] st').
  apply chain_run_blocks. unfold blocks_of.
  fold numeric_cols categorical_cols time_cols.
  repeat constructor; cbn [fst snd block_family]; intros st0;
    try reflexivity;
    match goal with
    | |- context [lift ?r] => destruct r; reflexivity
    end.
Qed.

End RunningBlocks.

(** A sorted list stays sorted without one of its elements. *)
Lemma StronglySorted_remove {A : Type} (R : A -> A -> Prop) (l1 l2 : list A)
    (x : A) :
  StronglySorted R (l1 ++ x :: l2) -> StronglySorted R (l1 ++ l2).
Proof.
  induction l1 as [|a l1 IH]; simpl; intros H.
  - now apply StronglySorted_inv in H.
  - apply StronglySorted_inv in H as [Hs Hf]. constructor; [now apply IH|].
    apply Forall_app in Hf as [Hf1 Hf2]. apply Forall_app. split; [assumption|].
    now inversion Hf2.
Qed.

Section BlockFacts.

Context {helpers : QuickchartHelpers}.

Variables (df : DataFrame) (reg : registry).

(** The builder calls of a run are those of the guarded blocks that come
    before the first guarded block whose selector raises. *)
Lemma run_blocks_calls (blocks : list block) :
  forall chart_sections st,
  exists es,
    snd (run_blocks df reg blocks chart_sections st) = add_events st es
    /\ Forall (fun e => exists f c, e = HelperCall f c) es
    /\ families_called es
       = map block_family (before_raise (filter block_guard blocks)).
Proof.
  induction blocks as [|[[cond f] r] blocks IH]; intros chart_sections st.
  - exists []. cbn. rewrite add_events_nil. repeat split; auto.
  - cbn [run_blocks filter block_guard fst]. destruct cond.
    + destruct r as [e|c].
      * exists []. cbn. rewrite add_events_nil. repeat split; auto.
      * destruct (IH (if truthy (charts_for df reg f c)
                      then chart_sections ++ [mk_section f (charts_for df reg f c)]
                      else chart_sections)
                     (add_events st [HelperCall f c]))
          as [es [Hst [Hcalls Hfam]]].
        exists (HelperCall f c :: es). split; [|split].
        -- rewrite Hst, add_events_app. reflexivity.
        -- constructor; [now exists f, c|exact Hcalls].
        -- cbn [before_raise snd map block_family fst families_called flat_map app].
           fold (families_called es). now rewrite Hfam.
    + exact (IH chart_sections st).
Qed.

(** A run raises exactly when a block with a true guard has a selector
    that raises. *)
Lemma run_blocks_raises (blocks : list block) :
  forall chart_sections st,
    (exists e, fst (run_blocks df reg blocks chart_sections st) = inl e)
    <-> exists b, In b blocks /\ block_guard b = true /\ exists e, snd b = inl e.
Proof.
  induction blocks as [|[[cond f] r] blocks IH]; intros chart_sections st.
  - cbn. split; [intros [e H]; discriminate|intros [b [[] _]]].
  - cbn [run_blocks]. destruct cond.
    + destruct r as [e|c].
      * split; [|intros _; now exists e].
        intros _. exists (true, f, inl e). split; [now left|].
        split; [reflexivity|now exists e].
      * rewrite IH. split.
        -- intros [b [Hin H]]. exists b. split; [now right|exact H].
        -- intros [b [[<-|Hin] [Hg [e He]]]]; [discriminate|].
           exists b. split; [exact Hin|]. split; [exact Hg|now exists e].
    + rewrite IH. split.
      * intros [b [Hin H]]. exists b. split; [now right|exact H].
      * intros [b [[<-|Hin] [Hg [e He]]]]; [discriminate|].
        exists b. split; [exact Hin|]. split; [exact Hg|now exists e].
Qed.

(** The sections of a run come in the order of the blocks and each holds a
    chart. *)
Lemma run_blocks_sorted (blocks : list block) :
  forall chart_sections st sections,
    StronglySorted (fun a b => (family_rank a < family_rank b)%nat)
      (map section_type chart_sections ++ map block_family blocks) ->
    Forall (fun s => charts s <> []) chart_sections ->
    fst (run_blocks df reg blocks chart_sections st) = inr sections ->
    StronglySorted (fun a b => (family_rank a < family_rank b)%nat)
      (map section_type sections)
    /\ Forall (fun s => charts s <> []) sections.
Proof.
  induction blocks as [|[[cond f] r] blocks IH];
    intros chart_sections st sections Hsorted Hcharts Hrun.
  - cbn in Hrun. inversion Hrun; subst.
    cbn in Hsorted. rewrite app_nil_r in Hsorted. now split.
  - cbn [run_blocks] in Hrun. cbn [map block_family fst snd] in Hsorted.
    destruct cond.
    + destruct r as [e|c]; [discriminate|].
      destruct (truthy (charts_for df reg f c)) eqn:Emade.
      * apply (IH _ _ _) in Hrun; [exact Hrun| |].
        -- rewrite map_app, <- app_assoc. exact Hsorted.
        -- apply Forall_app. split; [exact Hcharts|].
           constructor; [|constructor]. cbn. now apply truthy_true.
      * apply (IH _ _ _) in Hrun; [exact Hrun| |exact Hcharts].
        now apply StronglySorted_remove in Hsorted.
    + apply (IH _ _ _) in Hrun; [exact Hrun| |exact Hcharts].
      now apply StronglySorted_remove in Hsorted.
Qed.

End BlockFacts.

(** The blocks that are reached: all guarded ones for a valid cap, those
    before the first guarded [islice] block otherwise. *)
Lemma reached_families (g : dtype_groups) (k : option Z) :
  (cap_ok k ->
   map block_family (before_raise (filter block_guard (blocks_of g k)))
   = filter (guard g) family_order)
  /\ (~ cap_ok k ->
      map block_family (before_raise (filter block_guard (blocks_of g k)))
      = before_islice (filter (guard g) family_order)).
Proof.
  unfold blocks_of, family_order,
    _select_first_k_pairs, _select_faceted_numeric_cols, _select_time_series_cols.
  split; intros Hk.
  - rewrite !islice_ok by exact Hk.
    cbn [filter block_guard fst guard].
    destruct (truthy (numeric g)), (truthy (categorical g)),
      (Nat.leb 2 (List.length (numeric g))),
      (truthy (datetime g ++ timelike g)),
      (Nat.leb 2 (List.length (categorical g))); reflexivity.
  - assert (Hraise : forall (A : Type) (l : list A),
               islice l k = inl (ValueError
                                   (match k with
                                    | Some z => islice_message z
                                    | None => EmptyString
                                    end))).
    { intros A l. destruct k as [z|]; [|exfalso; apply Hk; exact I].
      apply not_cap_ok in Hk. unfold islice. now rewrite Hk. }
    rewrite !Hraise.
    cbn [filter block_guard fst guard].
    destruct (truthy (numeric g)), (truthy (categorical g)),
      (Nat.leb 2 (List.length (numeric g))),
      (truthy (datetime g ++ timelike g)),
      (Nat.leb 2 (List.length (categorical g))); reflexivity.
Qed.

Section OrchestratorFacts.

Context {helpers : QuickchartHelpers}.

(** X12: the orchestrator raises (the [ValueError] of [itertools.islice])
    exactly when the cap is an integer below 0 or above [sys.maxsize] and
    some block that selects with [islice] is reached: there are at least
    two numeric columns, or a time column, or at least two small
    categorical columns, or a numeric and a small categorical column.
    Otherwise it returns, whatever the cap. *)
Theorem determine_charts_raises_iff (df : DataFrame) (reg : registry)
    (k : option Z) (st : state) :
  (exists e, fst (determine_charts df reg k st) = inl e)
  <-> ~ cap_ok k
      /\ (guard (classify df) scatter = true
          \/ guard (classify df) time_series_line = true
          \/ guard (classify df) heatmap = true
          \/ guard (classify df) faceted_distribution = true).
Proof.
  rewrite determine_charts_blocks, run_blocks_raises.
  set (g := classify df).
  assert (Hp : forall l : list string,
             (exists e, _select_first_k_pairs l k = inl e) <-> ~ cap_ok k)
    by (intros l; apply islice_raises_iff).
  assert (Hf : (exists e, _select_faceted_numeric_cols (numeric g) (categorical g) k
                          = inl e) <-> ~ cap_ok k)
    by apply islice_raises_iff.
  assert (Ht : (exists e, _select_time_series_cols (datetime g ++ timelike g)
                            (numeric g) (categorical g) k = inl e)
               <-> ~ cap_ok k)
    by apply islice_raises_iff.
  unfold blocks_of. split.
  - intros [b [Hin [Hg [e He]]]]. cbn [In] in Hin.
    destruct Hin as [<-|[<-|[<-|[<-|[<-|[<-|[<-|[]]]]]]]];
      cbn [block_guard fst snd] in Hg, He; try discriminate.
    + split; [|now left]. apply (Hp (numeric g)).
      destruct (_select_first_k_pairs (numeric g) k) as [e'|]; [now exists e'|discriminate].
    + split; [|right; now left]. apply Ht.
      destruct (_select_time_series_cols _ _ _ k) as [e'|];
        [now exists e'|discriminate].
    + split; [|right; right; now left]. apply (Hp (categorical g)).
      destruct (_select_first_k_pairs (categorical g) k) as [e'|];
        [now exists e'|discriminate].
    + split; [|right; right; now right]. apply Hf.
      destruct (_select_faceted_numeric_cols _ _ k) as [e'|];
        [now exists e'|discriminate].
  - intros [Hk Hreach].
    destruct (proj2 (Hp (numeric g)) Hk) as [e1 H1].
    destruct (proj2 (Hp (categorical g)) Hk) as [e2 H2].
    destruct (proj2 Ht Hk) as [e3 H3]. destruct (proj2 Hf Hk) as [e4 H4].
    destruct Hreach as [H|[H|[H|H]]]; eexists; (split; [|split]).
    + right. right. left. reflexivity.
    + exact H.
    + exists e1. cbn [snd]. now rewrite H1.
    + right. right. right. left. reflexivity.
    + exact H.
    + exists e3. cbn [snd]. now rewrite H3.
    + do 5 right. left. reflexivity.
    + exact H.
    + exists e2. cbn [snd]. now rewrite H2.
    + do 6 right. left. reflexivity.
    + exact H.
    + exists e4. cbn [snd]. now rewrite H4.
Qed.

(** X13: whatever the cap, the sections that the orchestrator returns come
    in the fixed order histogram, categorical-histogram, scatter,
    time-series, value-plot, heatmap, faceted-distribution, each family at
    most once, and every returned section holds at least one chart. *)
Theorem determine_charts_sections_ordered (df : DataFrame) (reg : registry)
    (k : option Z) (st : state) (sections : list ChartSection) :
  fst (determine_charts df reg k st) = inr sections ->
  StronglySorted (fun a b => (family_rank a < family_rank b)%nat)
    (map section_type sections)
  /\ Forall (fun s => charts s <> []) sections.
Proof.
  rewrite determine_charts_blocks. apply run_blocks_sorted; [|constructor].
  cbn. repeat constructor; cbn; lia.
Qed.

(** X14: whatever the cap, after the classifier's warning the
    orchestrator emits builder calls only, in the fixed family order: for
    a valid cap one call for each family whose guard holds, and for a cap
    out of range the calls of exactly those guarded families that come
    before the first guarded family selecting with [islice] (scatter,
    time-series, heatmap or faceted-distribution). *)
Theorem determine_charts_calls (df : DataFrame) (reg : registry)
    (k : option Z) (st : state) :
  exists es,
    trace (snd (determine_charts df reg k st))
    = trace st ++ warnings_of df ++ es
    /\ Forall (fun e => exists f c, e = HelperCall f c) es
    /\ (cap_ok k ->
        families_called es = filter (guard (classify df)) family_order)
    /\ (~ cap_ok k ->
        families_called es
        = before_islice (filter (guard (classify df)) family_order)).
Proof.
  rewrite determine_charts_blocks.
  destruct (run_blocks_calls df reg (blocks_of (classify df) k) []
              (add_events st (warnings_of df)))
    as [es [Hst [Hcalls Hfam]]].
  destruct (reached_families (classify df) k) as [Hvalid Hinvalid].
  exists es. split; [|split; [|split]].
  - rewrite Hst. cbn [add_events trace]. now rewrite app_assoc.
  - exact Hcalls.
  - intros Hk. now rewrite Hfam, Hvalid.
  - intros Hk. now rewrite Hfam, Hinvalid.
Qed.

End OrchestratorFacts.

Lemma determine_charts_sections_ordered_sales :
  exists sections,
    fst (@determine_charts one_chart_per_candidate sales_frame NoRegistry None
           initial_state) = inr sections
    /\ StronglySorted (fun a b => (family_rank a < family_rank b)%nat)
         (map section_type sections)
    /\ Forall (fun s => charts s <> []) sections.
Proof.
  eexists. split; [reflexivity|].
  exact (@determine_charts_sections_ordered one_chart_per_candidate sales_frame
           NoRegistry None initial_state _ eq_refl).
Defined.

(** ** The entry points *)

Section EntryPoints.

Context {helpers : QuickchartHelpers}.

(** [find_charts] after the registry has been ensured. *)
Lemma find_charts_run (df : DataFrame) (k : option Z) (st : state) :
  find_charts df k st
  = match determine_charts df
            (_DATAFRAME_REGISTRY (snd (_ensure_dataframe_registry st))) k
            (snd (_ensure_dataframe_registry st)) with
    | (inl e, st') => (inl e, st')
    | (inr chart_sections, st') =>
        (inr chart_sections,
         if truthy chart_sections then st'
         else add_events st' [Print no_charts_notice])
    end.
Proof.
  destruct (_ensure_dataframe_registry_run st) as [Hensure _].
  unfold find_charts. rewrite (bind_inr _ _ _ _ _ Hensure).
  unfold read_registry at 1. unfold bind at 1.
  set (st0 := snd (_ensure_dataframe_registry st)).
  unfold bind at 1.
  destruct (determine_charts df (_DATAFRAME_REGISTRY st0) k st0)
    as [[e|chart_sections] st']; [reflexivity|].
  destruct chart_sections; reflexivity.
Qed.

Lemma _ensure_dataframe_registry_state (st : state) :
  snd (_ensure_dataframe_registry st)
  = mk_state (ipython_user_ns st)
      match _DATAFRAME_REGISTRY st with
      | NoRegistry =>
          DataframeRegistry
            match ipython_user_ns st with Some user_ns => user_ns | None => [] end
      | r => r
      end
      (trace st).
Proof.
  unfold _ensure_dataframe_registry. destruct st as [ns r tr]. cbn.
  destruct r; reflexivity.
Qed.

(** What [find_charts] adds to the ensured state. *)
Lemma find_charts_events (df : DataFrame) (k : option Z) (st : state) :
  exists es,
    snd (find_charts df k st)
    = add_events (snd (_ensure_dataframe_registry st)) es
    /\ printed es
       = match fst (find_charts df k st) with
         | inr [] => [no_charts_notice]
         | _ => []
         end.
Proof.
  rewrite find_charts_run.
  set (st0 := snd (_ensure_dataframe_registry st)).
  destruct (determine_charts_reads_only df (_DATAFRAME_REGISTRY st0) k st0)
    as [es [Hst Hes]].
  apply reads_only_printed in Hes.
  destruct (determine_charts df (_DATAFRAME_REGISTRY st0) k st0)
    as [[e|chart_sections] st']; cbn [fst snd] in *.
  - now exists es.
  - destruct chart_sections as [|section chart_sections]; cbn [truthy].
    + exists (es ++ [Print no_charts_notice]). split.
      * now rewrite Hst, add_events_app.
      * unfold printed in *. rewrite flat_map_app, Hes. reflexivity.
    + now exists es.
Qed.

(** X15: [find_charts] returns or raises what the orchestrator, run with
    the ensured registry, returns or raises; among everything it emits, a
    line is printed exactly when the result is the empty list, and that
    line is the notice: nothing is printed when a section is returned or
    when an exception propagates. *)
Theorem find_charts_notice_iff_empty (df : DataFrame) (k : option Z)
    (st : state) :
  fst (find_charts df k st)
  = fst (determine_charts df
           (_DATAFRAME_REGISTRY (snd (_ensure_dataframe_registry st))) k
           (snd (_ensure_dataframe_registry st)))
  /\ exists es,
      trace (snd (find_charts df k st)) = trace st ++ es
      /\ printed es
         = match fst (find_charts df k st) with
           | inr [] => [no_charts_notice]
           | _ => []
           end.
Proof.
  split.
  - rewrite find_charts_run.
    destruct (determine_charts _ _ _ _) as [[e|chart_sections] st']; reflexivity.
  - destruct (find_charts_events df k st) as [es [Hst Hes]].
    exists es. split; [|exact Hes].
    rewrite Hst, _ensure_dataframe_registry_state. reflexivity.
Qed.

Variable json : Type.
Variable to_json : ChartSection -> json.
Variable objects : string -> DataFrame.

(** X17: [find_charts_json] raises an [AttributeError] outside of IPython
    and a [KeyError] for a name that the user namespace does not bind, in
    both cases before anything is classified, logged or built.  For a
    bound name it returns one JSON value per section that the orchestrator
    returns for the bound frame and the fixed registry, in order, or
    propagates the orchestrator's exception.  In every case it prints
    nothing, not even when there is no section, and leaves the registry of
    the module and the namespace as they were. *)
Theorem find_charts_json_behaviour (df_name : string) (k : option Z)
    (st : state) :
  exists es,
    snd (find_charts_json json to_json objects df_name k st) = add_events st es
    /\ printed es = []
    /\ (ipython_user_ns st = None ->
        es = []
        /\ exists msg,
            fst (find_charts_json json to_json objects df_name k st)
            = inl (AttributeError msg))
    /\ (forall user_ns,
           ipython_user_ns st = Some user_ns -> ~ In df_name user_ns ->
           es = []
           /\ fst (find_charts_json json to_json objects df_name k st)
              = inl (KeyError df_name))
    /\ (forall user_ns,
           ipython_user_ns st = Some user_ns -> In df_name user_ns ->
           fst (find_charts_json json to_json objects df_name k st)
           = match fst (determine_charts (objects df_name)
                          (FixedDataframeRegistry df_name) k st) with
             | inl e => inl (Propagated e)
             | inr chart_sections => inr (map to_json chart_sections)
             end).
Proof.
  unfold find_charts_json.
  destruct (ipython_user_ns st) as [user_ns|] eqn:Ens.
  - destruct (contains user_ns df_name) eqn:Ein.
    + apply contains_In in Ein.
      destruct (determine_charts_reads_only (objects df_name)
                  (FixedDataframeRegistry df_name) k st) as [es [Hst Hes]].
      apply reads_only_printed in Hes. exists es.
      destruct (determine_charts (objects df_name)
                  (FixedDataframeRegistry df_name) k st)
        as [[e|chart_sections] st']; cbn [fst snd] in *;
        (split; [exact Hst|]; split; [exact Hes|]; split; [discriminate|];
         split; [intros ns Hns; inversion Hns; subst; contradiction
                |intros ns _ _; reflexivity]).
    + apply contains_not_In in Ein. exists []. cbn [fst snd].
      split; [symmetry; apply add_events_nil|]. split; [reflexivity|].
      split; [discriminate|]. split.
      * intros ns _ _. now split.
      * intros ns Hns Hin. inversion Hns; subst. contradiction.
  - exists []. cbn [fst snd]. split; [symmetry; apply add_events_nil|].
    split; [reflexivity|]. split.
    + intros _. split; [reflexivity|]. eexists. reflexivity.
    + split; intros ns Hns; discriminate.
Qed.

End EntryPoints.

(** ** The size threshold of the categorical split *)

(** X18: the keyword argument [categorical_size_threshold] only decides
    which categorical columns are small and which are large: for any two
    thresholds the numeric, datetime, timelike, singleton and filtered
    lists are the same, the small and large lists together hold the same
    columns, and with the larger threshold no small column becomes
    large. *)
Theorem threshold_only_splits_categoricals (df : DataFrame)
    (categorical_dtypes datetime_dtypes : list Dtype)
    (datetime_dtype_kinds : list ascii) (t t' : nat) :
  let g :=
    classify_with df categorical_dtypes datetime_dtypes datetime_dtype_kinds t in
  let g' :=
    classify_with df categorical_dtypes datetime_dtypes datetime_dtype_kinds t' in
  numeric g = numeric g' /\ datetime g = datetime g'
  /\ timelike g = timelike g' /\ singleton g = singleton g'
  /\ filtered g = filtered g'
  /\ Permutation (categorical g ++ large_categorical g)
       (categorical g' ++ large_categorical g')
  /\ ((t <= t')%nat -> incl (categorical g) (categorical g')).
Proof.
  cbv zeta. unfold classify_with. rewrite !split_categoricals_eq.
  cbn [numeric categorical large_categorical datetime timelike singleton filtered].
  repeat split.
  - apply (Permutation_count_occ string_dec). intros x.
    rewrite !count_occ_app, !count_occ_filter_split. reflexivity.
  - intros Ht c Hc. apply filter_In in Hc as [Hc Hle]. apply filter_In.
    split; [exact Hc|]. apply Nat.leb_le in Hle. apply Nat.leb_le. lia.
Qed.
